(** * Little Lemon API: the serializers of [LittleLemonAPI/serializers.py]

    A shallow embedding of the serializer layer of the Little Lemon
    restaurant API (Django REST framework) and the proofs of the properties
    its specification states about it.

    Conventions.
    - A database table is a list of rows together with the next primary key
      the database hands out; a queryset is a list of rows.
    - A Python [Decimal] is a coefficient and an exponent, with the
      arithmetic of the default context (28 digits, ROUND_HALF_EVEN).
    - Request data, validated data and kwargs dictionaries are [gmap]s with
      string keys; an output representation (an ordered dict) is a list of
      key/value pairs.
    - An operation that can raise returns a [result]. *)

From Stdlib Require Import ZArith Lia List Bool Ascii String.
From stdpp Require Import base option list strings pretty gmap.

Local Open Scope Z_scope.

(** ** Results of operations that may raise *)

Inductive error : Type :=
  | ValidationError (message : string)
  | FieldErrors (errors : list (string * string))
  | MultipleObjectsReturned
  | InvalidOperation.

Inductive result (A : Type) : Type :=
  | Ok (value : A)
  | Raise (e : error).
Arguments Ok {A} value.
Arguments Raise {A} e.

Definition is_ok {A : Type} (r : result A) : bool :=
  match r with Ok _ => true | Raise _ => false end.

(** ** Python's [decimal.Decimal] under the default context *)

Module Decimal.

(** A finite decimal: the number [coeff * 10 ^ exp].  The sign is carried
    by the coefficient (a negative zero is not distinguished; no price or
    quantity is one). *)
Record t : Type := mk { coeff : Z; exp : Z }.

(** [getcontext().prec] of the default context. *)
Definition prec : Z := 28.

(** [len(self._int)]: the number of decimal digits of the coefficient
    (one digit for zero). *)
Fixpoint ndigits_aux (fuel : nat) (n : Z) : Z :=
  match fuel with
  | O => 1
  | S fuel' => if n <? 10 then 1 else 1 + ndigits_aux fuel' (n / 10)
  end.

Definition ndigits (n : Z) : Z :=
  ndigits_aux (Z.to_nat (Z.log2 (Z.abs n))) (Z.abs n).

(** ROUND_HALF_EVEN, the rounding of the default context: [n / d] rounded
    to the nearest integer on the magnitude, a tie going to the even
    neighbour. *)
Definition round_half_even (n d : Z) : Z :=
  let q := Z.abs n / d in
  let r := Z.abs n mod d in
  Z.sgn n * (if (d <? 2 * r) || ((2 * r =? d) && Z.odd q) then q + 1 else q).

(** [_rescale(exp, ROUND_HALF_EVEN)]: the same number at exponent [e],
    padded with zeros or rounded. *)
Definition rescale (x : t) (e : Z) : t :=
  if e <=? exp x
  then mk (coeff x * 10 ^ (exp x - e)) e
  else mk (round_half_even (coeff x) (10 ^ (e - exp x))) e.

(** [_fix(context)]: round a result to the precision of the context.  A
    coefficient of at most [prec] digits is left as it is; a longer one
    loses its excess digits, and when rounding carries into one more
    digit the last is dropped too.  (The exponent limits [Emax] and
    [Emin] of the context, 999999 in magnitude, are not modelled.) *)
Definition fix_ (x : t) : t :=
  if Z.abs (coeff x) <? 10 ^ prec then x
  else
    let d := ndigits (coeff x) - prec in
    let c := round_half_even (coeff x) (10 ^ d) in
    if Z.abs c <? 10 ^ prec then mk c (exp x + d)
    else mk (c / 10) (exp x + d + 1).

(** [x * y]: the exact product, rounded to the context. *)
Definition mul (x y : t) : t :=
  fix_ (mk (coeff x * coeff y) (exp x + exp y)).

(** [x + y]: the exact sum at the smaller exponent, rounded to the
    context. *)
Definition add (x y : t) : t :=
  let e := Z.min (exp x) (exp y) in
  fix_ (mk (coeff x * 10 ^ (exp x - e) + coeff y * 10 ^ (exp y - e)) e).

(** [Decimal(n)] of a Python int, as [Decimal.__mul__] converts an int
    operand. *)
Definition of_int (n : Z) : t := mk n 0.

(** [x.quantize(q)] with the rounding of the context: [x] at the exponent
    of [q]; InvalidOperation when the result would need more than [prec]
    digits. *)
Definition quantize (x q : t) : result t :=
  if coeff x =? 0 then Ok (fix_ (mk 0 (exp q)))
  else if prec <? ndigits (coeff x) + exp x - exp q then Raise InvalidOperation
  else
    let ans := rescale x (exp q) in
    if prec <? ndigits (coeff ans) then Raise InvalidOperation
    else Ok ans.

(** The amount in hundredths, for a decimal of exponent [-2]. *)
Definition cents (c : Z) : t := mk c (-2).

End Decimal.

(** ** Primitive values of requests and representations *)

(** A JSON-like value: what a request carries and what a representation
    holds.  A [Decimal] object that a field hands over as it is stays a
    [Decimal.t]; a field that coerces to a string yields a [VStr].  (A
    request carries no [VDec].) *)
#[warnings="-register-all"]
Inductive value : Type :=
  | VNull
  | VBool (b : bool)
  | VInt (n : Z)
  | VStr (s : string)
  | VDec (d : Decimal.t)
  | VList (items : list value)
  | VDict (entries : list (string * value)).

(** [d.get(key)] on an ordered dict. *)
Fixpoint assoc (key : string) (d : list (string * value)) : option value :=
  match d with
  | [] => None
  | (k, v) :: d' => if String.eqb k key then Some v else assoc key d'
  end.

Definition keys (d : list (string * value)) : list string := map fst d.

(** ** [DecimalField]: the declared price field *)

Module DecimalContext.

(** [_fix] and [quantize] under a context of precision [p] (the field
    quantizes under a copy of the context with [prec = max_digits]). *)
Definition fix_ (p : Z) (x : Decimal.t) : Decimal.t :=
  if Z.abs (Decimal.coeff x) <? 10 ^ p then x
  else
    let d := Decimal.ndigits (Decimal.coeff x) - p in
    let c := Decimal.round_half_even (Decimal.coeff x) (10 ^ d) in
    if Z.abs c <? 10 ^ p then Decimal.mk c (Decimal.exp x + d)
    else Decimal.mk (c / 10) (Decimal.exp x + d + 1).

Definition quantize (p : Z) (x q : Decimal.t) : result Decimal.t :=
  if Decimal.coeff x =? 0 then Ok (fix_ p (Decimal.mk 0 (Decimal.exp q)))
  else if p <? Decimal.ndigits (Decimal.coeff x) + Decimal.exp x - Decimal.exp q
  then Raise InvalidOperation
  else
    let ans := Decimal.rescale x (Decimal.exp q) in
    if p <? Decimal.ndigits (Decimal.coeff ans) then Raise InvalidOperation
    else Ok ans.

(** [x < n] for a Python int [n]: the comparison is exact. *)
Definition lt_int (x : Decimal.t) (n : Z) : bool :=
  if 0 <=? Decimal.exp x
  then Decimal.coeff x * 10 ^ Decimal.exp x <? n
  else Decimal.coeff x <? n * 10 ^ (- Decimal.exp x).

(** One decimal digit, and the [n] low decimal digits of [m], the most
    significant first. *)
Definition digit (d : Z) : string :=
  String (ascii_of_nat (48 + Z.to_nat d)) EmptyString.

Fixpoint fixed_digits (n : nat) (m : Z) : string :=
  match n with
  | O => EmptyString
  | S n' => fixed_digits n' (m / 10) +:+ digit (m mod 10)
  end.

Fixpoint zeros (n : nat) : string :=
  match n with
  | O => EmptyString
  | S n' => String "0" (zeros n')
  end.

(** ['{:f}'.format(x)]: [x] in fixed point, without an exponent: the
    coefficient followed by zeros for an exponent that is not negative
    (a bare [0] for zero), and the digits before and after the point for a
    negative one. *)
Definition format_f (x : Decimal.t) : string :=
  let sign := if Decimal.coeff x <? 0 then "-" else EmptyString in
  let m := Z.abs (Decimal.coeff x) in
  if 0 <=? Decimal.exp x
  then
    if m =? 0 then "0"
    else sign +:+ pretty m +:+ zeros (Z.to_nat (Decimal.exp x))
  else
    let places := Z.to_nat (- Decimal.exp x) in
    sign +:+ pretty (m / 10 ^ (- Decimal.exp x)) +:+ "."
         +:+ fixed_digits places (m mod 10 ^ (- Decimal.exp x)).

End DecimalContext.

Module DecimalField.

(** [serializers.DecimalField(max_digits=, decimal_places=, min_value=,
    coerce_to_string=)] *)
Record t : Type := mk {
  max_digits : Z;
  decimal_places : Z;
  min_value : option Z;
  coerce_to_string : bool
}.

(** [validate_precision]: the digits in total, before the point and after
    it, read off the coefficient and the exponent. *)
Definition validate_precision (f : t) (value : Decimal.t) : result Decimal.t :=
  let len := Decimal.ndigits (Decimal.coeff value) in
  let exponent := Decimal.exp value in
  let total_digits :=
    if 0 <=? exponent then len + exponent
    else if Z.abs exponent <? len then len
    else Z.abs exponent in
  let whole_digits :=
    if 0 <=? exponent then len + exponent
    else if Z.abs exponent <? len then len - Z.abs exponent
    else 0 in
  let places :=
    if 0 <=? exponent then 0 else Z.abs exponent in
  if max_digits f <? total_digits
  then Raise (ValidationError
         ("Ensure that there are no more than " ++ pretty (max_digits f)
          ++ " digits in total."))
  else if decimal_places f <? places
  then Raise (ValidationError
         ("Ensure that there are no more than " ++ pretty (decimal_places f)
          ++ " decimal places."))
  else if max_digits f - decimal_places f <? whole_digits
  then Raise (ValidationError
         ("Ensure that there are no more than "
          ++ pretty (max_digits f - decimal_places f)
          ++ " digits before the decimal point."))
  else Ok value.

(** [quantize]: the value at [decimal_places] places, under a context of
    precision [max_digits]. *)
Definition quantize (f : t) (value : Decimal.t) : result Decimal.t :=
  DecimalContext.quantize (max_digits f) value (Decimal.mk 1 (- decimal_places f)).

(** [to_internal_value] of a parsed, finite decimal. *)
Definition to_internal_value (f : t) (value : Decimal.t) : result Decimal.t :=
  match validate_precision f value with
  | Raise e => Raise e
  | Ok v => quantize f v
  end.

(** [run_validation]: [to_internal_value], then the validator of
    [min_value]. *)
Definition run_validation (f : t) (value : Decimal.t) : result Decimal.t :=
  match to_internal_value f value with
  | Raise e => Raise e
  | Ok v =>
      match min_value f with
      | Some lo =>
          if DecimalContext.lt_int v lo
          then Raise (ValidationError
                 ("Ensure this value is greater than or equal to " ++ pretty lo ++ "."))
          else Ok v
      | None => Ok v
      end
  end.

(** [to_representation]: the value quantized as on input, and printed in
    fixed point when the field coerces to a string. *)
Definition to_representation (f : t) (d : Decimal.t) : result value :=
  match quantize f d with
  | Raise e => Raise e
  | Ok quantized =>
      if coerce_to_string f then Ok (VStr (DecimalContext.format_f quantized))
      else Ok (VDec quantized)
  end.

End DecimalField.

(** [price = DecimalField(max_digits=6, decimal_places=2,
    coerce_to_string=True, min_value=2)], of [MenuItemSerializer] and of
    [SingleItemSerializer]. *)
Definition price_field : DecimalField.t := DecimalField.mk 6 2 (Some 2) true.

(** ** Case-insensitive text match ([__iexact]) *)

Definition lower_ascii (a : ascii) : ascii :=
  let n := nat_of_ascii a in
  if ((65 <=? n) && (n <=? 90))%nat then ascii_of_nat (n + 32) else a.

Fixpoint lower (s : string) : string :=
  match s with
  | EmptyString => EmptyString
  | String a s' => String (lower_ascii a) (lower s')
  end.

(** The lookup [name__iexact=value]: equality up to the case of the ASCII
    letters. *)
Definition iexact (a b : string) : bool := String.eqb (lower a) (lower b).

(** ** The models the serializers read

    [models.py] declares them; the serializers fix the attributes they read
    and write.  A related object (a foreign key) is held as the object
    itself where a serializer reads through it, and as its primary key in
    the rows of a table that is searched. *)

Record User : Type := mkUser {
  u_pk : Z;
  username : string
}.

Record Category : Type := mkCategory {
  c_pk : Z;
  c_slug : string;
  c_title : string
}.

Record MenuItem : Type := mkMenuItem {
  mi_pk : Z;
  mi_name : string;
  mi_price : Decimal.t;
  mi_inventory : Z;
  mi_category : Category;
  mi_is_item_of_the_day : bool
}.

Record Rating : Type := mkRating {
  r_pk : Z;
  r_user : Z;
  r_menu_item : Z;
  r_score : Z;
  r_comment : option string
}.

Record CartItem : Type := mkCartItem {
  ci_pk : Z;
  ci_user : Z;
  ci_menu_item : Z;
  ci_quantity : Z;
  ci_unit_price : Decimal.t
}.

Record OrderItem : Type := mkOrderItem {
  oi_pk : Z;
  oi_menu_item : MenuItem;
  oi_quantity : Z;
  oi_unit_price : Decimal.t
}.

Record Order : Type := mkOrder {
  o_pk : Z;
  o_user : User;
  o_delivery_crew : option User;
  o_status : value;
  o_total : Decimal.t;
  o_date : string;
  o_items : list OrderItem
}.

(** A table: its rows, and the primary key the next insert receives. *)
Record table (A : Type) : Type := mkTable {
  rows : list A;
  next_pk : Z
}.
Arguments mkTable {A} rows next_pk.
Arguments rows {A} t.
Arguments next_pk {A} t.

(** [qs.exists()] *)
Definition qs_exists {A : Type} (qs : list A) : bool :=
  match qs with
  | [] => false
  | _ :: _ => true
  end.

(** ** [MenuItemSerializer.get_price_after_tax] *)

Definition tax_rate : Decimal.t := Decimal.mk 10 (-2).   (* Decimal('0.10') *)

Definition get_price_after_tax (obj : MenuItem) : result Decimal.t :=
  Decimal.quantize
    (Decimal.add (mi_price obj) (Decimal.mul (mi_price obj) tax_rate))
    (Decimal.mk 1 (-2)).                                   (* Decimal('0.01') *)

(** The specification's reading: [round(p * 1.10, 2)] with round-half-up,
    for a price of [c] hundredths. *)
Definition price_after_tax_half_up (c : Z) : Decimal.t :=
  Decimal.cents ((c * 110 + 50) / 100).

(** A menu item of the given name and price (in hundredths). *)
Definition menu_item_priced (pk : Z) (name : string) (c : Z) : MenuItem :=
  mkMenuItem pk name (Decimal.cents c) 10 (mkCategory 1 "mains" "Mains") false.

(** ** [validate_dish], of [MenuItemSerializer] and of [SingleItemSerializer] *)

Definition duplicate_dish : string := "Ya existe un plato con ese nombre.".

Module MenuItemSerializer.

(** [objects] is [MenuItem.objects]; [instance] is [self.instance]. *)
Definition validate_dish (objects : list MenuItem)
    (instance : option MenuItem) (value : string) : result string :=
  let qs := List.filter (fun m => iexact (mi_name m) value) objects in
  let qs :=
    match instance with
    | Some inst => List.filter (fun m => negb (mi_pk m =? mi_pk inst)) qs
    | None => qs
    end in
  if qs_exists qs then Raise (ValidationError duplicate_dish)
  else Ok value.

End MenuItemSerializer.

Module SingleItemSerializer.

Definition validate_dish (objects : list MenuItem)
    (instance : option MenuItem) (value : string) : result string :=
  let qs := List.filter (fun m => iexact (mi_name m) value) objects in
  let qs :=
    match instance with
    | Some inst => List.filter (fun m => negb (mi_pk m =? mi_pk inst)) qs
    | None => qs
    end in
  if qs_exists qs then Raise (ValidationError duplicate_dish)
  else Ok value.

End SingleItemSerializer.

(** ** [CartItemSerializer.create] *)

Module CartItemSerializer.

(** The validated data of a cart add: ['menu_item'] is a required field,
    ['quantity'] may be absent. *)
Record validated_data : Type := mkValidated {
  vd_menu_item : MenuItem;
  vd_quantity : option Z
}.

Definition same_pair (user menu_item : Z) (r : CartItem) : bool :=
  (ci_user r =? user) && (ci_menu_item r =? menu_item).

(** [CartItem.objects.get_or_create(user=, menu_item=, defaults=)]: the
    row of the pair when there is one, a new row built from the defaults
    when there is none; [get] raises on several rows. *)
Definition get_or_create (objects : table CartItem) (user : Z)
    (menu_item : MenuItem) (quantity : Z) (unit_price : Decimal.t)
    : result (CartItem * bool * table CartItem) :=
  match List.filter (same_pair user (mi_pk menu_item)) (rows objects) with
  | [] =>
      let obj := mkCartItem (next_pk objects) user (mi_pk menu_item)
                            quantity unit_price in
      Ok (obj, true, mkTable (rows objects ++ [obj]) (next_pk objects + 1))
  | [obj] => Ok (obj, false, objects)
  | _ :: _ :: _ => Raise MultipleObjectsReturned
  end.

(** [obj.save()] of a loaded row: the row of that primary key is
    overwritten; an object without a row is inserted. *)
Definition save (objects : table CartItem) (obj : CartItem) : table CartItem :=
  if existsb (fun r => ci_pk r =? ci_pk obj) (rows objects)
  then mkTable
         (map (fun r => if ci_pk r =? ci_pk obj then obj else r) (rows objects))
         (next_pk objects)
  else mkTable (rows objects ++ [obj]) (Z.max (next_pk objects) (ci_pk obj + 1)).

Definition set_quantity (obj : CartItem) (q : Z) : CartItem :=
  mkCartItem (ci_pk obj) (ci_user obj) (ci_menu_item obj) q (ci_unit_price obj).

(** [user] is [self.context['request'].user]. *)
Definition create (objects : table CartItem) (user : Z)
    (data : validated_data) : result (CartItem * table CartItem) :=
  let menu_item := vd_menu_item data in
  let quantity := default 1 (vd_quantity data) in
  match get_or_create objects user menu_item quantity (mi_price menu_item) with
  | Raise e => Raise e
  | Ok (obj, created, objects') =>
      if negb created then
        let obj' := set_quantity obj (ci_quantity obj + quantity) in
        Ok (obj', save objects' obj')
      else Ok (obj, objects')
  end.

End CartItemSerializer.

(** ** Fields: validation of one item of a request *)

(** What [Field.run_validation] does with one field of the request: the
    field is skipped, it yields a validated value, or it is in error. *)
Inductive outcome (A : Type) : Type :=
  | Skip
  | Valid (a : A)
  | Invalid (message : string).
Arguments Skip {A}.
Arguments Valid {A} a.
Arguments Invalid {A} message.

Definition error_message (e : error) : string :=
  match e with
  | ValidationError m => m
  | FieldErrors _ => "Invalid data."
  | MultipleObjectsReturned => "MultipleObjectsReturned"
  | InvalidOperation => "InvalidOperation"
  end.

(** [Field.run_validation(data)], [data] being [field.get_value(request)]:
    an absent item is skipped on a partial update, an error for a required
    field and skipped otherwise (no field here declares a default); a null
    is the validated value when the field allows it. *)
Definition run_field {A : Type} (partial required allow_null : bool)
    (null : A) (to_internal_value : value -> result A)
    (data : option value) : outcome A :=
  match data with
  | None =>
      if partial then Skip
      else if required then Invalid "This field is required."
      else Skip
  | Some VNull =>
      if allow_null then Valid null else Invalid "This field may not be null."
  | Some v =>
      match to_internal_value v with
      | Ok a => Valid a
      | Raise e => Invalid (error_message e)
      end
  end.

Definition field_error {A : Type} (name : string) (o : outcome A)
    : list (string * string) :=
  match o with
  | Invalid m => [(name, m)]
  | _ => []
  end.

Definition validated {A : Type} (o : outcome A) : option A :=
  match o with
  | Valid a => Some a
  | _ => None
  end.

(** A field that [ModelSerializer] derives from a column of the model: what
    the column's declaration (in [models.py]) decides. *)
Record model_field : Type := mkModelField {
  mf_required : bool;
  mf_allow_null : bool;
  mf_to_internal_value : value -> result value
}.

(** [RelatedField.run_validation] reads an empty string as null. *)
Definition related_data (data : option value) : option value :=
  match data with
  | Some (VStr "") => Some VNull
  | _ => data
  end.

(** Python's [repr] of a text: in single quotes, or in double quotes when
    the text holds a single quote and no double quote; the quote and the
    backslash escaped, tab, newline and return as their letters, the other
    control characters in hexadecimal, every other byte as it is. *)
Definition hex_digit (n : nat) : ascii :=
  ascii_of_nat (if (n <? 10)%nat then 48 + n else 87 + n).

Definition backslash : ascii := ascii_of_nat 92.
Definition single_quote : ascii := ascii_of_nat 39.
Definition double_quote : ascii := ascii_of_nat 34.

Fixpoint holds (a : ascii) (s : string) : bool :=
  match s with
  | EmptyString => false
  | String b s' => Ascii.eqb a b || holds a s'
  end.

Definition repr_char (quote a : ascii) : string :=
  let n := nat_of_ascii a in
  if Ascii.eqb a quote || Ascii.eqb a backslash
  then String backslash (String a EmptyString)
  else if (n =? 9)%nat then String backslash "t"
  else if (n =? 10)%nat then String backslash "n"
  else if (n =? 13)%nat then String backslash "r"
  else if ((n <? 32) || (n =? 127))%nat
  then String backslash
         (String "x" (String (hex_digit (n / 16)) (String (hex_digit (n mod 16)) EmptyString)))
  else String a EmptyString.

Fixpoint repr_chars (quote : ascii) (s : string) : string :=
  match s with
  | EmptyString => EmptyString
  | String a s' => repr_char quote a +:+ repr_chars quote s'
  end.

Definition repr_str (s : string) : string :=
  let quote :=
    if holds single_quote s && negb (holds double_quote s)
    then double_quote else single_quote in
  String quote (repr_chars quote s) +:+ String quote EmptyString.

(** Python's [repr] of a request value. *)
Fixpoint python_repr (v : value) : string :=
  match v with
  | VNull => "None"
  | VBool true => "True"
  | VBool false => "False"
  | VInt n => pretty n
  | VStr s => repr_str s
  | VDec d => DecimalContext.format_f d
  | VList l =>
      "[" +:+
      (fix items (l : list value) : string :=
         match l with
         | [] => EmptyString
         | [x] => python_repr x
         | x :: l' => python_repr x +:+ ", " +:+ items l'
         end) l
      +:+ "]"
  | VDict d =>
      "{" +:+
      (fix entries (d : list (string * value)) : string :=
         match d with
         | [] => EmptyString
         | [(k, x)] => repr_str k +:+ ": " +:+ python_repr x
         | (k, x) :: d' => repr_str k +:+ ": " +:+ python_repr x +:+ ", " +:+ entries d'
         end) d
      +:+ "}"
  end.

(** Python's [str] of a request value: a text is itself, anything else is
    its [repr]. *)
Definition python_str (v : value) : string :=
  match v with
  | VStr s => s
  | _ => python_repr v
  end.

(** [SlugRelatedField(slug_field='username').to_internal_value]: the user
    whose username is the submitted value; the lookup compares the username
    with the text of the value, so a number names the user whose username
    is that number.  (Usernames are unique.) *)
Definition slug_to_internal_value (queryset : list User) (data : value)
    : result User :=
  let slug := python_str data in
  match List.find (fun u => String.eqb (username u) slug) queryset with
  | Some u => Ok u
  | None =>
      Raise (ValidationError ("Object with username=" ++ slug ++ " does not exist."))
  end.

(** [IntegerField]'s validators for the keyword arguments [max_value] and
    [min_value]. *)
Definition integer_validators (kwargs : gmap string Z) (v : Z) : result Z :=
  match kwargs !! "max_value" with
  | Some hi =>
      if hi <? v
      then Raise (ValidationError
             ("Ensure this value is less than or equal to " ++ pretty hi ++ "."))
      else
        match kwargs !! "min_value" with
        | Some lo =>
            if v <? lo
            then Raise (ValidationError
                   ("Ensure this value is greater than or equal to " ++ pretty lo ++ "."))
            else Ok v
        | None => Ok v
        end
  | None =>
      match kwargs !! "min_value" with
      | Some lo =>
          if v <? lo
          then Raise (ValidationError
                 ("Ensure this value is greater than or equal to " ++ pretty lo ++ "."))
          else Ok v
      | None => Ok v
      end
  end.

(** [ModelSerializer.get_fields], for a field that is not declared on the
    class: the keyword arguments derived from the model's column, updated
    with the entry of [Meta.extra_kwargs] under the field's own name. *)
Definition build_field_kwargs (model_kwargs : string -> gmap string Z)
    (extra_kwargs : gmap string (gmap string Z)) (field_name : string)
    : gmap string Z :=
  default ∅ (extra_kwargs !! field_name) ∪ model_kwargs field_name.

(** ** [RatingSerializer] *)

Module RatingSerializer.

Definition fields : list string := ["id"; "menu_item"; "score"; "comment"; "user"].

Definition extra_kwargs : gmap string (gmap string Z) :=
  {[ "rating" := {[ "max_value" := 5; "min_value" := 0 ]} ]}.

Definition unique_message : string := "You have already rated this menu item.".

(** The attributes of a submission after the fields are read: the user
    (the submitted one, or the caller by default) and the menu item are
    resolved to their primary keys. *)
Record attrs : Type := mkAttrs {
  a_user : Z;
  a_menu_item : Z;
  a_score : Z;
  a_comment : option string
}.

(** The serializer's field [score]; [model_kwargs] gives the bounds the
    columns of the [Rating] model carry. *)
Definition validate_score (model_kwargs : string -> gmap string Z) (v : Z)
    : result Z :=
  integer_validators (build_field_kwargs model_kwargs extra_kwargs "score") v.

(** [UniqueTogetherValidator(queryset, fields=['user', 'menu_item'])] on a
    create. *)
Definition unique_together (queryset : list Rating) (a : attrs) : result unit :=
  if qs_exists
       (List.filter
          (fun r => (r_user r =? a_user a) && (r_menu_item r =? a_menu_item a))
          queryset)
  then Raise (ValidationError unique_message)
  else Ok tt.

(** [run_validation]: the fields first, then the validators of [Meta]. *)
Definition run_validation (model_kwargs : string -> gmap string Z)
    (objects : table Rating) (a : attrs) : result attrs :=
  match validate_score model_kwargs (a_score a) with
  | Raise e => Raise (FieldErrors [("score", error_message e)])
  | Ok _ =>
      match unique_together (rows objects) a with
      | Raise e => Raise e
      | Ok _ => Ok a
      end
  end.

(** [ModelSerializer.create]: a new row of [Rating.objects] holding the
    validated data. *)
Definition create (objects : table Rating) (a : attrs) : Rating * table Rating :=
  let obj := mkRating (next_pk objects) (a_user a) (a_menu_item a)
                      (a_score a) (a_comment a) in
  (obj, mkTable (rows objects ++ [obj]) (next_pk objects + 1)).

(** A submission: [is_valid(raise_exception=True)] and [save()]. *)
Definition submit (model_kwargs : string -> gmap string Z)
    (objects : table Rating) (a : attrs) : result (Rating * table Rating) :=
  match run_validation model_kwargs objects a with
  | Raise e => Raise e
  | Ok a' => Ok (create objects a')
  end.

Definition ratings_of (user menu_item : Z) (objects : table Rating) : list Rating :=
  List.filter (fun r => (r_user r =? user) && (r_menu_item r =? menu_item))
              (rows objects).

End RatingSerializer.

(** ** The order update serializers *)

Definition set_delivery_crew (o : Order) (u : option User) : Order :=
  mkOrder (o_pk o) (o_user o) u (o_status o) (o_total o) (o_date o) (o_items o).

Definition set_status (o : Order) (s : value) : Order :=
  mkOrder (o_pk o) (o_user o) (o_delivery_crew o) s (o_total o) (o_date o) (o_items o).

Definition set_total (o : Order) (t : Decimal.t) : Order :=
  mkOrder (o_pk o) (o_user o) (o_delivery_crew o) (o_status o) t (o_date o) (o_items o).

(** [o'] has the identity, owner, total, date and items of [o]. *)
Definition same_order_but_crew_and_status (o o' : Order) : Prop :=
  o_pk o' = o_pk o /\
  o_user o' = o_user o /\
  o_total o' = o_total o /\
  o_date o' = o_date o /\
  o_items o' = o_items o.

(** The validated data of an order update: each key may be absent. *)
Record order_update : Type := mkOrderUpdate {
  vd_delivery_crew : option (option User);
  vd_status : option value
}.

(** [ModelSerializer.update]: every item of the validated data is assigned
    to its attribute of the instance (which is then saved). *)
Definition update (instance : Order) (vd : order_update) : Order :=
  let instance :=
    match vd_delivery_crew vd with
    | Some u => set_delivery_crew instance u
    | None => instance
    end in
  match vd_status vd with
  | Some s => set_status instance s
  | None => instance
  end.

Module ManagerOrderUpdateSerializer.

Definition fields : list string := ["delivery_crew"; "status"].

(** [to_internal_value]: each declared field reads its own item of the
    request; the errors of the fields are raised together. *)
Definition to_internal_value (status : model_field) (users : list User)
    (partial : bool) (data : gmap string value) : result order_update :=
  let dc := run_field partial false true None
              (fun v => match slug_to_internal_value users v with
                        | Ok u => Ok (Some u)
                        | Raise e => Raise e
                        end)
              (related_data (data !! "delivery_crew")) in
  let st := run_field partial (mf_required status) (mf_allow_null status) VNull
              (mf_to_internal_value status) (data !! "status") in
  match field_error "delivery_crew" dc ++ field_error "status" st with
  | [] => Ok (mkOrderUpdate (validated dc) (validated st))
  | errors => Raise (FieldErrors errors)
  end.

(** [is_valid(raise_exception=True)] and [save()] on an order. *)
Definition save (status : model_field) (users : list User) (partial : bool)
    (instance : Order) (data : gmap string value) : result Order :=
  match to_internal_value status users partial data with
  | Raise e => Raise e
  | Ok vd => Ok (update instance vd)
  end.

End ManagerOrderUpdateSerializer.

Module DeliveryCrewOrderUpdateSerializer.

Definition fields : list string := ["status"].

Definition to_internal_value (status : model_field) (partial : bool)
    (data : gmap string value) : result order_update :=
  let st := run_field partial (mf_required status) (mf_allow_null status) VNull
              (mf_to_internal_value status) (data !! "status") in
  match field_error "status" st with
  | [] => Ok (mkOrderUpdate None (validated st))
  | errors => Raise (FieldErrors errors)
  end.

Definition save (status : model_field) (partial : bool)
    (instance : Order) (data : gmap string value) : result Order :=
  match to_internal_value status partial data with
  | Raise e => Raise e
  | Ok vd => Ok (update instance vd)
  end.

End DeliveryCrewOrderUpdateSerializer.

(** A status column for the examples: a boolean flag, required. *)
Definition boolean_status : model_field :=
  mkModelField true false
    (fun v => match v with
              | VBool b => Ok (VBool b)
              | _ => Raise (ValidationError "Must be a valid boolean.")
              end).

(** ** Representations *)

(** A field of a serializer, as far as output goes: its name, its
    [read_only] and [write_only] flags, and how it renders its attribute of
    an instance. *)
Record field (M : Type) : Type := mkField {
  field_name : string;
  read_only : bool;
  write_only : bool;
  to_repr : M -> result value
}.
Arguments mkField {M} field_name read_only write_only to_repr.
Arguments field_name {M} f.
Arguments read_only {M} f.
Arguments write_only {M} f.
Arguments to_repr {M} f.

(** [_readable_fields] and [_writable_fields] *)
Definition readable_fields {M : Type} (fs : list (field M)) : list (field M) :=
  List.filter (fun f => negb (write_only f)) fs.

Definition writable_fields {M : Type} (fs : list (field M)) : list (field M) :=
  List.filter (fun f => negb (read_only f)) fs.

Fixpoint represent {M : Type} (fs : list (field M)) (instance : M)
    : result (list (string * value)) :=
  match fs with
  | [] => Ok []
  | f :: fs' =>
      match to_repr f instance with
      | Raise e => Raise e
      | Ok v =>
          match represent fs' instance with
          | Raise e => Raise e
          | Ok r => Ok ((field_name f, v) :: r)
          end
      end
  end.

(** [Serializer.to_representation]: one entry per readable field, in the
    order of [Meta.fields]. *)
Definition to_representation {M : Type} (fs : list (field M)) (instance : M)
    : result (list (string * value)) :=
  represent (readable_fields fs) instance.

(** A serializer with [many=True]: the representation of each instance. *)
Fixpoint represent_many {M : Type} (fs : list (field M)) (instances : list M)
    : result (list value) :=
  match instances with
  | [] => Ok []
  | i :: is' =>
      match to_representation fs i with
      | Raise e => Raise e
      | Ok r =>
          match represent_many fs is' with
          | Raise e => Raise e
          | Ok rs => Ok (VDict r :: rs)
          end
      end
  end.

Definition nested (r : result (list (string * value))) : result value :=
  match r with
  | Ok d => Ok (VDict d)
  | Raise e => Raise e
  end.

Definition listed (r : result (list value)) : result value :=
  match r with
  | Ok l => Ok (VList l)
  | Raise e => Raise e
  end.

Definition decimal_value (r : result Decimal.t) : result value :=
  match r with
  | Ok d => Ok (VDec d)
  | Raise e => Raise e
  end.

Definition CategoryMiniSerializer_fields : list (field Category) :=
  [ mkField "id" true false (fun c => Ok (VInt (c_pk c)));
    mkField "name" false false (fun c => Ok (VStr (c_title c))) ].

(** The fields of [MenuItemSerializer], in the order of [Meta.fields]. *)
Definition MenuItemSerializer_fields : list (field MenuItem) :=
  [ mkField "id" true false (fun m => Ok (VInt (mi_pk m)));
    mkField "dish" false false (fun m => Ok (VStr (mi_name m)));
    mkField "price" false false
      (fun m => DecimalField.to_representation price_field (mi_price m));
    mkField "price_after_tax" true false
      (fun m => decimal_value (get_price_after_tax m));
    mkField "stock" false false (fun m => Ok (VInt (mi_inventory m)));
    mkField "category" true false
      (fun m => nested (to_representation CategoryMiniSerializer_fields (mi_category m)));
    mkField "category_id" false true (fun m => Ok (VInt (c_pk (mi_category m))));
    mkField "is_item_of_the_day" true false
      (fun m => Ok (VBool (mi_is_item_of_the_day m))) ].

(** Modelled from the spec: the attribute [OrderItem.total_price], which
    [models.py] (not among the sources) declares; the specification gives
    it as the derived total price, quantity times unit price, in decimal
    arithmetic. *)
Definition OrderItem_total_price (obj : OrderItem) : Decimal.t :=
  Decimal.mul (oi_unit_price obj) (Decimal.of_int (oi_quantity obj)).

(** The columns [unit_price] (of an order item) and [total] (of an order)
    are declared in [models.py]; the views hold their stored decimals. *)
Module OrderItemReadSerializer.

Definition get_total_price (obj : OrderItem) : Decimal.t :=
  OrderItem_total_price obj.

Definition fields : list (field OrderItem) :=
  [ mkField "id" true false (fun i => Ok (VInt (oi_pk i)));
    mkField "menu_item" false false (fun i => Ok (VInt (mi_pk (oi_menu_item i))));
    mkField "dish" true false (fun i => Ok (VStr (mi_name (oi_menu_item i))));
    mkField "quantity" false false (fun i => Ok (VInt (oi_quantity i)));
    mkField "unit_price" false false (fun i => Ok (VDec (oi_unit_price i)));
    mkField "total_price" true false (fun i => Ok (VDec (get_total_price i))) ].

End OrderItemReadSerializer.

Module OrderReadSerializer.

Definition get_delivery_crew (obj : Order) : value :=
  match o_delivery_crew obj with
  | Some u => VStr (username u)
  | None => VNull
  end.

Definition fields : list (field Order) :=
  [ mkField "id" true false (fun o => Ok (VInt (o_pk o)));
    mkField "user" true false (fun o => Ok (VStr (username (o_user o))));
    mkField "delivery_crew" true false (fun o => Ok (get_delivery_crew o));
    mkField "status" false false (fun o => Ok (o_status o));
    mkField "total" false false (fun o => Ok (VDec (o_total o)));
    mkField "date" false false (fun o => Ok (VStr (o_date o)));
    mkField "items" true false
      (fun o => listed (represent_many OrderItemReadSerializer.fields (o_items o))) ].

End OrderReadSerializer.

(** The names of the menu item view, as [Meta.fields] lists them. *)
Definition menu_item_meta_fields : list string :=
  ["id"; "dish"; "price"; "price_after_tax"; "stock"; "category";
   "category_id"; "is_item_of_the_day"].

(** The view of an order item: its six entries. *)
Definition order_item_view (i : OrderItem) : value :=
  VDict
    [ ("id", VInt (oi_pk i));
      ("menu_item", VInt (mi_pk (oi_menu_item i)));
      ("dish", VStr (mi_name (oi_menu_item i)));
      ("quantity", VInt (oi_quantity i));
      ("unit_price", VDec (oi_unit_price i));
      ("total_price",
       VDec (Decimal.mul (oi_unit_price i) (Decimal.of_int (oi_quantity i)))) ].

(** ** Sample data *)

(** An order of two portions bought at 12.50, of a dish that now costs
    14.00; the total stored on the order (0.01) is not the sum of its
    items. *)
Definition ex_order : Order :=
  mkOrder 7 (mkUser 1 "ann") None (VBool false) (Decimal.cents 1) "2024-01-01"
    [mkOrderItem 1 (menu_item_priced 3 "Pasta" 1400) 2 (Decimal.cents 1250)].

(** ** Well-formed cart tables *)

(** What the database keeps of the cart table: primary keys are distinct
    and below the next one handed out. *)
Definition keys_fresh (objects : table CartItem) : Prop :=
  NoDup (map ci_pk (rows objects)) /\
  Forall (fun r => ci_pk r < next_pk objects) (rows objects).

(** At most one row per (user, menu item). *)
Definition one_row_per_pair (objects : table CartItem) : Prop :=
  forall user menu_item,
    (length (List.filter (CartItemSerializer.same_pair user menu_item) (rows objects))
     <= 1)%nat.

(** What [save] does to a row when it writes [obj'] over the row of its
    primary key. *)
Definition overwrite (obj' r : CartItem) : CartItem :=
  if ci_pk r =? ci_pk obj' then obj' else r.

(** A run of cart adds by one user: each [create] works on the table the
    one before it left, and the first error ends the run. *)
Fixpoint create_all (objects : table CartItem) (user : Z)
    (requests : list CartItemSerializer.validated_data) : result (table CartItem) :=
  match requests with
  | [] => Ok objects
  | data :: rest =>
      match CartItemSerializer.create objects user data with
      | Raise e => Raise e
      | Ok (_, objects') => create_all objects' user rest
      end
  end.

(** The quantities a run of requests asks for, added up. *)
Definition requested_quantity (requests : list CartItemSerializer.validated_data) : Z :=
  fold_right Z.add 0
    (map (fun d => default 1 (CartItemSerializer.vd_quantity d)) requests).

(** ** [SingleItemSerializer]: the fields, in the order of [Meta.fields] *)

Definition SingleItemSerializer_fields : list (field MenuItem) :=
  [ mkField "id" true false (fun m => Ok (VInt (mi_pk m)));
    mkField "dish" false false (fun m => Ok (VStr (mi_name m)));
    mkField "price" false false
      (fun m => DecimalField.to_representation price_field (mi_price m));
    mkField "category" true false
      (fun m => nested (to_representation CategoryMiniSerializer_fields (mi_category m)));
    mkField "category_id" false true (fun m => Ok (VInt (c_pk (mi_category m))));
    mkField "stock" false false (fun m => Ok (VInt (mi_inventory m)));
    mkField "is_item_of_the_day" true false
      (fun m => Ok (VBool (mi_is_item_of_the_day m))) ].

(** * Properties *)

(** ** Decimal arithmetic *)

Section DecimalFacts.

Import Decimal.

Lemma ndigits_aux_le (fuel : nat) : forall n k,
  0 <= n < 10 ^ k -> 1 <= k -> ndigits_aux fuel n <= k.
Proof.
  induction fuel as [|fuel IH]; intros n k Hn Hk; simpl; [lia|].
  destruct (Z.ltb_spec n 10) as [Hlt|Hge]; [lia|].
  assert (Hk2 : 2 <= k).
  { destruct (Z.eq_dec k 1) as [->|]; [|lia]. change (10 ^ 1) with 10 in Hn. lia. }
  assert (Hdiv : 0 <= n / 10 < 10 ^ (k - 1)).
  { split; [apply Z.div_pos; lia|].
    apply Z.div_lt_upper_bound; [lia|].
    replace (10 * 10 ^ (k - 1)) with (10 ^ k); [lia|].
    replace k with (Z.succ (k - 1)) at 1 by lia.
    rewrite Z.pow_succ_r by lia. reflexivity. }
  specialize (IH (n / 10) (k - 1) Hdiv ltac:(lia)). lia.
Qed.

Lemma ndigits_le (n k : Z) :
  Z.abs n < 10 ^ k -> 1 <= k -> ndigits n <= k.
Proof.
  intros Hn Hk. unfold ndigits. apply ndigits_aux_le; lia.
Qed.

(** With fuel enough for the binary length, [ndigits_aux] is the decimal
    length. *)
Lemma ndigits_aux_spec (fuel : nat) : forall n,
  0 <= n < 2 ^ (Z.of_nat fuel + 1) ->
  10 ^ (ndigits_aux fuel n - 1) <= Z.max n 1 /\ n < 10 ^ ndigits_aux fuel n.
Proof.
  induction fuel as [|fuel IH]; intros n Hn.
  - simpl in *. change (2 ^ 1) with 2 in Hn. change (10 ^ 1) with 10. lia.
  - cbn [ndigits_aux].
    destruct (Z.ltb_spec n 10) as [Hlt|Hge].
    + change (10 ^ (1 - 1)) with 1. change (10 ^ 1) with 10. lia.
    + assert (Hdiv : 0 <= n / 10 < 2 ^ (Z.of_nat fuel + 1)).
      { split; [apply Z.div_pos; lia|].
        apply Z.div_lt_upper_bound; [lia|].
        replace (Z.of_nat (S fuel) + 1) with (Z.succ (Z.of_nat fuel + 1)) in Hn by lia.
        rewrite Z.pow_succ_r in Hn by lia. lia. }
      destruct (IH (n / 10) Hdiv) as [Hlo Hhi].
      set (d := ndigits_aux fuel (n / 10)) in *.
      assert (Hd : 1 <= d).
      { destruct (Z.le_gt_cases 1 d) as [|Hd0]; [assumption|].
        exfalso.
        assert (10 ^ d <= 10 ^ 0) by (apply Z.pow_le_mono_r; lia).
        change (10 ^ 0) with 1 in *.
        assert (1 <= n / 10) by (apply Z.div_le_lower_bound; lia). lia. }
      assert (Hpow : 10 ^ d = 10 * 10 ^ (d - 1)).
      { replace d with (Z.succ (d - 1)) at 1 by lia.
        rewrite Z.pow_succ_r by lia. reflexivity. }
      replace (1 + d - 1) with d by lia.
      replace (1 + d) with (Z.succ d) by lia.
      rewrite Z.pow_succ_r by lia.
      pose proof (Z.div_mod n 10 ltac:(lia)) as Hdm.
      pose proof (Z.mod_pos_bound n 10 ltac:(lia)) as Hmod.
      assert (1 <= n / 10) by (apply Z.div_le_lower_bound; lia).
      lia.
Qed.

Lemma ndigits_spec (n : Z) :
  n <> 0 -> 10 ^ (ndigits n - 1) <= Z.abs n < 10 ^ ndigits n.
Proof.
  intros Hn. unfold ndigits.
  assert (Hpos : 0 < Z.abs n) by lia.
  destruct (ndigits_aux_spec (Z.to_nat (Z.log2 (Z.abs n))) (Z.abs n)) as [Hlo Hhi].
  - pose proof (Z.log2_nonneg (Z.abs n)).
    rewrite Z2Nat.id by assumption.
    pose proof (Z.log2_spec (Z.abs n) Hpos) as Hs.
    replace (Z.log2 (Z.abs n) + 1) with (Z.succ (Z.log2 (Z.abs n))) by lia. lia.
  - lia.
Qed.

Lemma fix_small (x : t) : Z.abs (coeff x) < 10 ^ prec -> fix_ x = x.
Proof.
  intros H. unfold fix_.
  destruct (Z.ltb_spec (Z.abs (coeff x)) (10 ^ prec)); [reflexivity|lia].
Qed.

(** A product that fits the precision is exact. *)
Lemma mul_exact (x y : t) :
  Z.abs (coeff x * coeff y) < 10 ^ prec ->
  mul x y = mk (coeff x * coeff y) (exp x + exp y).
Proof. intros H. unfold mul. apply fix_small. exact H. Qed.

(** Round-half-even of a non-negative numerator: the nearest integer, the
    even one on a tie. *)
Lemma round_half_even_nearest (n d : Z) :
  0 <= n -> 0 < d ->
  let r := round_half_even n d in
  0 <= r /\ 2 * Z.abs (d * r - n) <= d /\
  (2 * Z.abs (d * r - n) = d -> Z.even r = true).
Proof.
  intros Hn Hd r. subst r. unfold round_half_even.
  rewrite (Z.abs_eq n) by assumption.
  destruct (Z.eq_dec n 0) as [Hn0|Hn0].
  { subst n. change (Z.sgn 0) with 0. rewrite Z.mul_0_l.
    repeat split; try lia. }
  pose proof (Z.div_mod n d ltac:(lia)) as Hdm.
  pose proof (Z.mod_pos_bound n d Hd) as Hmod.
  assert (Hq : 0 <= n / d) by (apply Z.div_pos; lia).
  set (q := n / d) in *. set (m := n mod d) in *.
  rewrite Z.sgn_pos by lia. rewrite Z.mul_1_l.
  destruct (Z.ltb_spec d (2 * m)) as [Hhi|Hlo]; cbn [orb].
  - repeat split; try nia.
  - destruct (Z.eqb_spec (2 * m) d) as [Heq|Hne]; cbn [andb].
    + destruct (Z.odd q) eqn:Hodd.
      * repeat split; try nia.
        intros _. rewrite Z.even_add, <- Z.negb_odd, Hodd. reflexivity.
      * repeat split; try nia.
        intros _. rewrite <- Z.negb_odd, Hodd. reflexivity.
    + repeat split; try nia.
Qed.

End DecimalFacts.

(** ** Price after tax *)

(** The sum [price + price * tax_rate] of a two-decimal price of [c]
    hundredths: [c * 110] at exponent [-4], exactly. *)
Lemma price_plus_tax (c : Z) :
  0 <= c -> c * 110 < 10 ^ Decimal.prec ->
  Decimal.add (Decimal.cents c) (Decimal.mul (Decimal.cents c) tax_rate)
  = Decimal.mk (c * 110) (-4).
Proof.
  intros Hc Hb. unfold Decimal.cents, tax_rate.
  rewrite mul_exact; cbn [Decimal.coeff Decimal.exp].
  2: { rewrite Z.abs_eq by lia. lia. }
  unfold Decimal.add. cbn [Decimal.coeff Decimal.exp].
  change (Z.min (-2) (-2 + -2)) with (-4).
  change (10 ^ (-2 - -4)) with 100. change (10 ^ (-2 + -2 - -4)) with 1.
  rewrite fix_small; cbn [Decimal.coeff].
  - f_equal. lia.
  - rewrite Z.abs_eq by lia. lia.
Qed.

(** C2, as the specification states it, fails: a price of 2.15 gives 2.36,
    where round-half-up of 2.3650 is 2.37. *)
Lemma price_after_tax_not_half_up :
  200 <= 215 /\
  get_price_after_tax (menu_item_priced 1 "Pasta" 215) = Ok (Decimal.cents 236) /\
  price_after_tax_half_up 215 = Decimal.cents 237 /\
  get_price_after_tax (menu_item_priced 1 "Pasta" 215)
    <> Ok (price_after_tax_half_up 215).
Proof.
  split; [lia|]. split; [reflexivity|]. split; [reflexivity|].
  vm_compute. discriminate.
Qed.

(** On a two-decimal price of [c] hundredths, within the precision of the
    context, [get_price_after_tax] returns a two-decimal amount. *)
Lemma get_price_after_tax_cents (obj : MenuItem) (c : Z) :
  mi_price obj = Decimal.cents c ->
  0 < c ->
  c * 110 < 10 ^ Decimal.prec ->
  get_price_after_tax obj
  = Ok (Decimal.cents (Decimal.round_half_even (c * 110) 100)).
Proof.
  intros Hp Hc Hb.
  destruct (round_half_even_nearest (c * 110) 100 ltac:(lia) ltac:(lia))
    as (Hr0 & Hnear & _).
  unfold get_price_after_tax. rewrite Hp, price_plus_tax by lia.
  unfold Decimal.quantize. cbn [Decimal.coeff Decimal.exp].
  destruct (Z.eqb_spec (c * 110) 0) as [|_]; [lia|].
  assert (Hd : Decimal.ndigits (c * 110) <= Decimal.prec).
  { apply ndigits_le; [rewrite Z.abs_eq by lia; lia|].
    unfold Decimal.prec. lia. }
  destruct (Z.ltb_spec Decimal.prec (Decimal.ndigits (c * 110) + -4 - -2)) as [Hbad|_];
    [lia|].
  unfold Decimal.rescale. cbn [Decimal.coeff Decimal.exp].
  change (-2 <=? -4) with false. cbv iota.
  change (10 ^ (-2 - -4)) with 100. cbn [Decimal.coeff].
  set (r := Decimal.round_half_even (c * 110) 100) in *.
  assert (Hr : Decimal.ndigits r <= Decimal.prec).
  { apply ndigits_le; [|unfold Decimal.prec; lia].
    rewrite Z.abs_eq by lia. lia. }
  destruct (Z.ltb_spec Decimal.prec (Decimal.ndigits r)) as [Hbad|_]; [lia|].
  reflexivity.
Qed.

(** C2, amended: for a two-decimal price [p >= 2.00] (of [c] hundredths,
    within the precision of the context), [get_price_after_tax] returns
    [p * 1.10] rounded to two decimal places with round-half-even: the
    nearest hundredth, and on a tie the even one. *)
Theorem price_after_tax_half_even (obj : MenuItem) (c : Z) :
  mi_price obj = Decimal.cents c ->
  200 <= c ->
  c * 110 < 10 ^ Decimal.prec ->
  exists r,
    get_price_after_tax obj = Ok (Decimal.cents r) /\
    r = Decimal.round_half_even (c * 110) 100 /\
    2 * Z.abs (100 * r - c * 110) <= 100 /\
    (2 * Z.abs (100 * r - c * 110) = 100 -> Z.even r = true).
Proof.
  intros Hp Hc Hb.
  exists (Decimal.round_half_even (c * 110) 100).
  destruct (round_half_even_nearest (c * 110) 100 ltac:(lia) ltac:(lia))
    as (_ & Hnear & Htie).
  split; [|split; [reflexivity|split; assumption]].
  apply get_price_after_tax_cents; [assumption|lia|assumption].
Qed.

Lemma price_after_tax_half_even_witness :
  exists r,
    get_price_after_tax (menu_item_priced 1 "Pasta" 215) = Ok (Decimal.cents r) /\
    r = Decimal.round_half_even (215 * 110) 100 /\
    2 * Z.abs (100 * r - 215 * 110) <= 100 /\
    (2 * Z.abs (100 * r - 215 * 110) = 100 -> Z.even r = true).
Proof.
  apply (price_after_tax_half_even (menu_item_priced 1 "Pasta" 215) 215).
  - reflexivity.
  - lia.
  - vm_compute. reflexivity.
Defined.

(** ** Dish names *)

Lemma qs_exists_In {A : Type} (qs : list A) :
  qs_exists qs = true <-> exists x, In x qs.
Proof.
  destruct qs as [|x qs]; simpl; split.
  - discriminate.
  - intros [x []].
  - intros _. exists x. left. reflexivity.
  - reflexivity.
Qed.

Lemma lower_ascii_idempotent (a : ascii) : lower_ascii (lower_ascii a) = lower_ascii a.
Proof.
  destruct a as [[] [] [] [] [] [] [] []]; reflexivity.
Qed.

Lemma lower_idempotent (s : string) : lower (lower s) = lower s.
Proof.
  induction s as [|a s IH]; simpl; [reflexivity|].
  rewrite lower_ascii_idempotent, IH. reflexivity.
Qed.

(** A name matches itself in any casing. *)
Lemma iexact_refl (s : string) : iexact s s = true.
Proof. unfold iexact. apply String.eqb_refl. Qed.

Lemma iexact_lower (s : string) : iexact s (lower s) = true.
Proof. unfold iexact. rewrite lower_idempotent. apply String.eqb_refl. Qed.

Lemma iexact_sym (a b : string) : iexact a b = iexact b a.
Proof. unfold iexact. apply String.eqb_sym. Qed.

(** The queryset that [validate_dish] tests: the rows of a matching name,
    the instance excluded. *)
Lemma validate_dish_raises (objects : list MenuItem) (instance : option MenuItem)
    (value : string) :
  MenuItemSerializer.validate_dish objects instance value
    = Raise (ValidationError duplicate_dish)
  <-> exists m, In m objects /\ iexact (mi_name m) value = true /\
        forall inst, instance = Some inst -> mi_pk m <> mi_pk inst.
Proof.
  unfold MenuItemSerializer.validate_dish.
  destruct instance as [inst|].
  - destruct (qs_exists _) eqn:E.
    + split; [intros _|reflexivity].
      apply qs_exists_In in E. destruct E as [m Hm].
      apply filter_In in Hm. destruct Hm as [Hm Hpk].
      apply filter_In in Hm. destruct Hm as [Hin Hname].
      exists m. repeat split; try assumption.
      intros inst' [= <-]. apply negb_true_iff in Hpk. lia.
    + split; [discriminate|].
      intros (m & Hin & Hname & Hother). exfalso.
      assert (qs_exists
                (List.filter (fun m0 => negb (mi_pk m0 =? mi_pk inst))
                   (List.filter (fun m0 => iexact (mi_name m0) value) objects))
              = true) as E'.
      { apply qs_exists_In. exists m. apply filter_In. split.
        - apply filter_In. split; assumption.
        - apply negb_true_iff. specialize (Hother inst eq_refl). lia. }
      congruence.
  - destruct (qs_exists _) eqn:E.
    + split; [intros _|reflexivity].
      apply qs_exists_In in E. destruct E as [m Hm].
      apply filter_In in Hm. destruct Hm as [Hin Hname].
      exists m. repeat split; try assumption. discriminate.
    + split; [discriminate|].
      intros (m & Hin & Hname & _). exfalso.
      assert (qs_exists (List.filter (fun m0 => iexact (mi_name m0) value) objects)
              = true) as E'.
      { apply qs_exists_In. exists m. apply filter_In. split; assumption. }
      congruence.
Qed.

Lemma validate_dish_total (objects : list MenuItem) (instance : option MenuItem)
    (value : string) :
  MenuItemSerializer.validate_dish objects instance value
    = Raise (ValidationError duplicate_dish)
  \/ MenuItemSerializer.validate_dish objects instance value = Ok value.
Proof.
  unfold MenuItemSerializer.validate_dish.
  destruct (qs_exists _); [left|right]; reflexivity.
Qed.

(** C4: [validate_dish] raises the validation error when the name of some
    other existing menu item matches the candidate case-insensitively, and
    returns the candidate when every case-insensitive match is the record
    being updated: a record keeps its own name, in any casing. *)
Theorem validate_dish_case_insensitive_unique (objects : list MenuItem)
    (instance : option MenuItem) (value : string) :
  ((exists m, In m objects /\ iexact (mi_name m) value = true /\
       forall inst, instance = Some inst -> mi_pk m <> mi_pk inst) ->
   MenuItemSerializer.validate_dish objects instance value
     = Raise (ValidationError duplicate_dish))
  /\
  ((forall m, In m objects -> iexact (mi_name m) value = true ->
       exists inst, instance = Some inst /\ mi_pk m = mi_pk inst) ->
   MenuItemSerializer.validate_dish objects instance value = Ok value)
  /\
  (forall inst, instance = Some inst ->
     (forall m, In m objects -> mi_pk m <> mi_pk inst ->
        iexact (mi_name m) (mi_name inst) = false) ->
     iexact (mi_name inst) value = true ->
     MenuItemSerializer.validate_dish objects instance value = Ok value).
Proof.
  split; [|split].
  - apply validate_dish_raises.
  - intros Honly.
    destruct (validate_dish_total objects instance value) as [Hr|Hok]; [|exact Hok].
    apply validate_dish_raises in Hr.
    destruct Hr as (m & Hin & Hname & Hother).
    destruct (Honly m Hin Hname) as (inst & Hinst & Hpk).
    exfalso. exact (Hother inst Hinst Hpk).
  - intros inst Hinst Hothers Hvalue.
    destruct (validate_dish_total objects instance value) as [Hr|Hok]; [|exact Hok].
    apply validate_dish_raises in Hr.
    destruct Hr as (m & Hin & Hname & Hother).
    exfalso.
    specialize (Hothers m Hin (Hother inst Hinst)).
    unfold iexact in *.
    apply String.eqb_eq in Hname, Hvalue.
    rewrite Hname, <- Hvalue, String.eqb_refl in Hothers. discriminate.
Qed.

Lemma validate_dish_case_insensitive_unique_witness :
  MenuItemSerializer.validate_dish
    [menu_item_priced 3 "Pasta" 1250; menu_item_priced 4 "Soup" 600]
    None "PASTA"
  = Raise (ValidationError duplicate_dish)
  /\
  MenuItemSerializer.validate_dish
    [menu_item_priced 3 "Pasta" 1250; menu_item_priced 4 "Soup" 600]
    (Some (menu_item_priced 3 "Pasta" 1250)) "pASTA"
  = Ok "pASTA".
Proof.
  split.
  - apply (validate_dish_case_insensitive_unique _ None "PASTA").
    exists (menu_item_priced 3 "Pasta" 1250).
    split; [left; reflexivity|]. split; [reflexivity|]. discriminate.
  - apply (validate_dish_case_insensitive_unique _
             (Some (menu_item_priced 3 "Pasta" 1250)) "pASTA").
    intros m [<-|[<-|[]]] Hname.
    + exists (menu_item_priced 3 "Pasta" 1250). split; reflexivity.
    + vm_compute in Hname. discriminate.
Defined.

(** C10: on the same rows, instance and candidate name, the dish-name
    validation of [MenuItemSerializer] and that of [SingleItemSerializer]
    give the same result: both return the name, or both raise the same
    error. *)
Theorem validate_dish_serializers_agree (objects : list MenuItem)
    (instance : option MenuItem) (value : string) :
  MenuItemSerializer.validate_dish objects instance value
  = SingleItemSerializer.validate_dish objects instance value.
Proof.
  unfold MenuItemSerializer.validate_dish, SingleItemSerializer.validate_dish.
  destruct instance as [inst|]; destruct (qs_exists _); reflexivity.
Qed.

(** ** The cart *)

Section Cart.

Import CartItemSerializer.

Lemma same_pair_new (pk user menu_item q : Z) (price : Decimal.t) :
  same_pair user menu_item (mkCartItem pk user menu_item q price) = true.
Proof. unfold same_pair. simpl. rewrite !Z.eqb_refl. reflexivity. Qed.

(** Saving an object under a primary key that no row holds yet leaves the
    rows as they are. *)
Lemma overwrite_fresh (obj : CartItem) (l : list CartItem) :
  Forall (fun r => ci_pk r < ci_pk obj) l ->
  map (fun r => if ci_pk r =? ci_pk obj then obj else r) l = l.
Proof.
  induction 1 as [|r l Hr _ IH]; simpl; [reflexivity|].
  destruct (Z.eqb_spec (ci_pk r) (ci_pk obj)); [lia|]. rewrite IH. reflexivity.
Qed.

(** The first add of a pair creates its row, with the given quantity and
    the current price. *)
Lemma create_first (objects : table CartItem) (user : Z) (data : validated_data) :
  List.filter (same_pair user (mi_pk (vd_menu_item data))) (rows objects) = [] ->
  let obj := mkCartItem (next_pk objects) user (mi_pk (vd_menu_item data))
               (default 1 (vd_quantity data)) (mi_price (vd_menu_item data)) in
  create objects user data
  = Ok (obj, mkTable (rows objects ++ [obj]) (next_pk objects + 1)).
Proof.
  intros Hnone obj. unfold create, get_or_create. rewrite Hnone. reflexivity.
Qed.

(** A later add of the pair adds to the quantity of its row and changes
    nothing else of it. *)
Lemma create_again (objects : table CartItem) (user : Z) (data : validated_data)
    (obj : CartItem) :
  List.filter (same_pair user (mi_pk (vd_menu_item data))) (rows objects) = [obj] ->
  let obj' := set_quantity obj (ci_quantity obj + default 1 (vd_quantity data)) in
  create objects user data = Ok (obj', save objects obj').
Proof.
  intros Hone obj'. unfold create, get_or_create. rewrite Hone. reflexivity.
Qed.

(** C1: when the cart holds no row for (user, menu item), an add of
    quantity [q1] followed by an add of [q2] for the same pair leaves
    exactly one row for the pair; its quantity is [q1 + q2] (an absent
    quantity counting as 1) and its unit price is the price the menu item
    had at the first add, whatever its price [mi_price item'] at the
    second. *)
Theorem cart_add_twice_merges (objects : table CartItem) (user : Z)
    (item item' : MenuItem) (q1 q2 : option Z) :
  Forall (fun r => ci_pk r < next_pk objects) (rows objects) ->
  List.filter (same_pair user (mi_pk item)) (rows objects) = [] ->
  mi_pk item' = mi_pk item ->
  exists obj1 objects1 obj2 objects2,
    create objects user (mkValidated item q1) = Ok (obj1, objects1) /\
    create objects1 user (mkValidated item' q2) = Ok (obj2, objects2) /\
    List.filter (same_pair user (mi_pk item)) (rows objects2) = [obj2] /\
    ci_quantity obj2 = default 1 q1 + default 1 q2 /\
    ci_unit_price obj2 = mi_price item /\
    ci_unit_price obj1 = mi_price item /\
    rows objects2 = rows objects ++ [obj2].
Proof.
  intros Hfresh Hnone Hsame.
  set (obj1 := mkCartItem (next_pk objects) user (mi_pk item)
                 (default 1 q1) (mi_price item)).
  set (objects1 := mkTable (rows objects ++ [obj1]) (next_pk objects + 1)).
  set (obj2 := set_quantity obj1 (ci_quantity obj1 + default 1 q2)).
  exists obj1, objects1, obj2, (save objects1 obj2).
  assert (H1 : create objects user (mkValidated item q1) = Ok (obj1, objects1)).
  { apply (create_first objects user (mkValidated item q1)). exact Hnone. }
  assert (Hone : List.filter (same_pair user (mi_pk item)) (rows objects1) = [obj1]).
  { unfold objects1. cbn [rows]. rewrite List.filter_app, Hnone. cbn [List.filter app].
    unfold obj1. rewrite same_pair_new. reflexivity. }
  assert (H2 : create objects1 user (mkValidated item' q2)
               = Ok (obj2, save objects1 obj2)).
  { apply (create_again objects1 user (mkValidated item' q2) obj1).
    cbn [vd_menu_item]. rewrite Hsame. exact Hone. }
  assert (Hrows : rows (save objects1 obj2) = rows objects ++ [obj2]).
  { unfold save.
    assert (Hex : existsb (fun r => ci_pk r =? ci_pk obj2) (rows objects1) = true).
    { apply existsb_exists. exists obj1. split.
      - unfold objects1. cbn [rows]. apply in_or_app. right. left. reflexivity.
      - apply Z.eqb_refl. }
    rewrite Hex. cbn [rows]. unfold objects1 at 1. cbn [rows].
    rewrite map_app, overwrite_fresh by exact Hfresh.
    cbn [map]. change (ci_pk obj1 =? ci_pk obj2) with (next_pk objects =? next_pk objects).
    rewrite Z.eqb_refl. reflexivity. }
  split; [exact H1|]. split; [exact H2|].
  split; [|split; [reflexivity|split; [reflexivity|split; [reflexivity|exact Hrows]]]].
  rewrite Hrows, List.filter_app, Hnone. cbn [List.filter app].
  unfold obj2, obj1, set_quantity. cbn [ci_pk ci_user ci_menu_item].
  rewrite same_pair_new. reflexivity.
Qed.

Lemma cart_add_twice_merges_witness :
  exists obj1 objects1 obj2 objects2,
    create (mkTable [mkCartItem 1 8 4 1 (Decimal.cents 600)] 2) 8
           (mkValidated (menu_item_priced 3 "Pasta" 1250) (Some 2))
      = Ok (obj1, objects1) /\
    create objects1 8 (mkValidated (menu_item_priced 3 "Pasta" 1400) (Some 3))
      = Ok (obj2, objects2) /\
    List.filter (same_pair 8 3) (rows objects2) = [obj2] /\
    ci_quantity obj2 = 2 + 3 /\
    ci_unit_price obj2 = Decimal.cents 1250 /\
    ci_unit_price obj1 = Decimal.cents 1250 /\
    rows objects2 = [mkCartItem 1 8 4 1 (Decimal.cents 600); obj2].
Proof.
  apply (cart_add_twice_merges
           (mkTable [mkCartItem 1 8 4 1 (Decimal.cents 600)] 2) 8
           (menu_item_priced 3 "Pasta" 1250) (menu_item_priced 3 "Pasta" 1400)
           (Some 2) (Some 3)).
  - repeat constructor.
  - reflexivity.
  - reflexivity.
Defined.

End Cart.

(** ** Ratings *)

Section Ratings.

Import RatingSerializer.

Variable model_kwargs : string -> gmap string Z.

(** The entry of [extra_kwargs] is keyed ["rating"], which is none of the
    serializer's fields: every field is built from the model's column
    alone. *)
Lemma extra_kwargs_unused (name : string) :
  In name fields ->
  build_field_kwargs model_kwargs extra_kwargs name = model_kwargs name.
Proof.
  intros Hin. unfold build_field_kwargs, extra_kwargs.
  rewrite lookup_singleton_ne.
  - simpl. apply (left_id_L ∅ (∪)).
  - unfold fields in Hin. simpl in Hin.
    intuition (subst; discriminate).
Qed.

Lemma validate_score_model (v : Z) :
  validate_score model_kwargs v = integer_validators (model_kwargs "score") v.
Proof.
  unfold validate_score. rewrite extra_kwargs_unused; [reflexivity|].
  unfold fields. simpl. tauto.
Qed.

Lemma unique_together_ok (objects : table Rating) (a : attrs) :
  unique_together (rows objects) a = Ok tt
  <-> ratings_of (a_user a) (a_menu_item a) objects = [].
Proof.
  unfold unique_together, ratings_of.
  destruct (List.filter _ (rows objects)) as [|r l]; simpl; split;
    intros H; try reflexivity; discriminate.
Qed.

Lemma unique_together_raises (objects : table Rating) (a : attrs) :
  unique_together (rows objects) a = Raise (ValidationError unique_message)
  <-> ratings_of (a_user a) (a_menu_item a) objects <> [].
Proof.
  unfold unique_together, ratings_of.
  destruct (List.filter _ (rows objects)) as [|r l]; simpl; split;
    intros H; try reflexivity; try discriminate. contradiction.
Qed.

(** A submission that succeeds found no rating of its pair and appends
    one. *)
Lemma submit_ok (objects objects1 : table Rating) (a : attrs) (obj : Rating) :
  submit model_kwargs objects a = Ok (obj, objects1) ->
  ratings_of (a_user a) (a_menu_item a) objects = [] /\
  obj = mkRating (next_pk objects) (a_user a) (a_menu_item a) (a_score a) (a_comment a) /\
  rows objects1 = rows objects ++ [obj].
Proof.
  unfold submit, run_validation.
  destruct (validate_score model_kwargs (a_score a)); [|discriminate].
  destruct (unique_together (rows objects) a) as [[]|e] eqn:Hu; [|discriminate].
  unfold create. intros [= <- <-].
  apply unique_together_ok in Hu. auto.
Qed.

Lemma ratings_of_app (u m : Z) (objects : table Rating) (obj : Rating) (n : Z) :
  ratings_of u m (mkTable (rows objects ++ [obj]) n)
  = ratings_of u m objects ++
    (if (r_user obj =? u) && (r_menu_item obj =? m) then [obj] else []).
Proof.
  unfold ratings_of. cbn [rows]. rewrite List.filter_app. reflexivity.
Qed.

End Ratings.

(** C3: the code at a score of 6.  The bounds 0 and 5 are declared in
    [extra_kwargs] under ["rating"], which is not a field of the
    serializer, so the field [score] carries only the bounds of the model's
    column; over a column without bounds of its own a score of 6 (and one
    of -1) passes validation. *)
Theorem rating_score_six_accepted :
  RatingSerializer.extra_kwargs !! "score" = None /\
  (forall model_kwargs v,
     RatingSerializer.validate_score model_kwargs v
     = integer_validators (model_kwargs "score") v) /\
  RatingSerializer.validate_score (fun _ => ∅) 6 = Ok 6 /\
  RatingSerializer.validate_score (fun _ => ∅) (-1) = Ok (-1).
Proof.
  split; [reflexivity|]. split; [apply validate_score_model|].
  split; rewrite validate_score_model; reflexivity.
Qed.

(** C8: a first rating of a (user, menu item) pair passes the uniqueness
    check; once a submission of the pair has succeeded, any further
    submission of the same pair is rejected, with the validator's message
    when its fields are valid; and a table with at most one rating per pair
    stays so. *)
Theorem rating_unique_per_user_and_item (model_kwargs : string -> gmap string Z)
    (objects : table Rating) (a : RatingSerializer.attrs) :
  (RatingSerializer.ratings_of (RatingSerializer.a_user a)
     (RatingSerializer.a_menu_item a) objects = [] ->
   RatingSerializer.unique_together (rows objects) a = Ok tt)
  /\
  (forall obj objects1 a2,
     RatingSerializer.submit model_kwargs objects a = Ok (obj, objects1) ->
     RatingSerializer.a_user a2 = RatingSerializer.a_user a ->
     RatingSerializer.a_menu_item a2 = RatingSerializer.a_menu_item a ->
     RatingSerializer.unique_together (rows objects1) a2
       = Raise (ValidationError RatingSerializer.unique_message) /\
     is_ok (RatingSerializer.submit model_kwargs objects1 a2) = false /\
     (is_ok (RatingSerializer.validate_score model_kwargs
               (RatingSerializer.a_score a2)) = true ->
      RatingSerializer.submit model_kwargs objects1 a2
        = Raise (ValidationError RatingSerializer.unique_message)))
  /\
  (forall obj objects1,
     (forall u m, (length (RatingSerializer.ratings_of u m objects) <= 1)%nat) ->
     RatingSerializer.submit model_kwargs objects a = Ok (obj, objects1) ->
     forall u m, (length (RatingSerializer.ratings_of u m objects1) <= 1)%nat).
Proof.
  split; [|split].
  - intros Hnone. apply unique_together_ok. exact Hnone.
  - intros obj objects1 a2 Hsub Hu Hm.
    apply submit_ok in Hsub. destruct Hsub as (Hnone & Hobj & Hrows).
    assert (Hdup : RatingSerializer.unique_together (rows objects1) a2
                   = Raise (ValidationError RatingSerializer.unique_message)).
    { apply unique_together_raises. rewrite Hu, Hm.
      destruct objects1 as [rows1 next1]. cbn [rows] in Hrows. subst rows1.
      rewrite ratings_of_app, Hnone, Hobj. cbn [r_user r_menu_item].
      rewrite !Z.eqb_refl. discriminate. }
    split; [exact Hdup|].
    unfold RatingSerializer.submit, RatingSerializer.run_validation.
    rewrite Hdup.
    destruct (RatingSerializer.validate_score model_kwargs _); simpl.
    + split; [reflexivity|]. intros _. reflexivity.
    + split; [reflexivity|]. discriminate.
  - intros obj objects1 Hinv Hsub u m.
    apply submit_ok in Hsub. destruct Hsub as (Hnone & Hobj & Hrows).
    destruct objects1 as [rows1 next1]. cbn [rows] in Hrows. subst rows1.
    rewrite ratings_of_app, length_app.
    destruct ((r_user obj =? u) && (r_menu_item obj =? m)) eqn:E.
    + apply andb_true_iff in E. destruct E as [Eu Em].
      apply Z.eqb_eq in Eu, Em. rewrite Hobj in Eu, Em. cbn in Eu, Em.
      subst u m. rewrite Hnone. simpl. lia.
    + specialize (Hinv u m). simpl. lia.
Qed.

Lemma rating_unique_per_user_and_item_witness :
  RatingSerializer.unique_together [] (RatingSerializer.mkAttrs 8 3 4 None) = Ok tt
  /\
  RatingSerializer.submit (fun _ => ∅)
    (mkTable [mkRating 1 8 3 4 None] 2) (RatingSerializer.mkAttrs 8 3 5 (Some "again"))
  = Raise (ValidationError RatingSerializer.unique_message).
Proof.
  destruct (rating_unique_per_user_and_item (fun _ => ∅) (mkTable [] 1)
              (RatingSerializer.mkAttrs 8 3 4 None)) as (Hfirst & Hsecond & _).
  split.
  - apply Hfirst. reflexivity.
  - apply (Hsecond (mkRating 1 8 3 4 None) (mkTable [mkRating 1 8 3 4 None] 2)
             (RatingSerializer.mkAttrs 8 3 5 (Some "again"))); reflexivity.
Defined.

(** ** Order updates *)

Lemma set_status_restores (o : Order) (s : value) :
  set_status (set_status o s) (o_status o) = o.
Proof. destruct o. reflexivity. Qed.

(** [update] touches the status and the delivery crew only, and each only
    when the validated data holds it. *)
Lemma update_frame (o : Order) (vd : order_update) :
  o_pk (update o vd) = o_pk o /\
  o_user (update o vd) = o_user o /\
  o_total (update o vd) = o_total o /\
  o_date (update o vd) = o_date o /\
  o_items (update o vd) = o_items o /\
  o_delivery_crew (update o vd) = default (o_delivery_crew o) (vd_delivery_crew vd) /\
  o_status (update o vd) = default (o_status o) (vd_status vd).
Proof.
  destruct vd as [[u|] [s|]]; repeat split; reflexivity.
Qed.

Lemma handler_validated (status : model_field) (partial : bool)
    (data : gmap string value) (vd : order_update) :
  DeliveryCrewOrderUpdateSerializer.to_internal_value status partial data = Ok vd ->
  vd_delivery_crew vd = None.
Proof.
  unfold DeliveryCrewOrderUpdateSerializer.to_internal_value.
  destruct (field_error _ _); [|discriminate].
  intros [= <-]. reflexivity.
Qed.

(** C5, as the specification states it, fails: a handler request that
    carries [delivery_crew] next to a valid [status] is accepted. *)
Lemma handler_delivery_crew_not_rejected :
  is_Some (({[ "status" := VBool true; "delivery_crew" := VStr "bob" ]}
            : gmap string value) !! "delivery_crew") /\
  DeliveryCrewOrderUpdateSerializer.save boolean_status false ex_order
    {[ "status" := VBool true; "delivery_crew" := VStr "bob" ]}
  = Ok (set_status ex_order (VBool true)).
Proof. split; [eexists|]; reflexivity. Qed.

(** C5, amended: the handler serializer does not read a [delivery_crew]
    item of the request: the request is validated and applied as if the
    item were absent, and an accepted request changes no attribute of the
    order but its status. *)
Theorem handler_update_ignores_delivery_crew (status : model_field)
    (partial : bool) (instance : Order) (data : gmap string value) (crew : value) :
  DeliveryCrewOrderUpdateSerializer.save status partial instance
    (<["delivery_crew" := crew]> data)
  = DeliveryCrewOrderUpdateSerializer.save status partial instance
      (delete "delivery_crew" data)
  /\
  (forall o',
     DeliveryCrewOrderUpdateSerializer.save status partial instance
       (<["delivery_crew" := crew]> data) = Ok o' ->
     o_delivery_crew o' = o_delivery_crew instance /\
     set_status o' (o_status instance) = instance).
Proof.
  split.
  - unfold DeliveryCrewOrderUpdateSerializer.save,
      DeliveryCrewOrderUpdateSerializer.to_internal_value.
    rewrite lookup_insert_ne, lookup_delete_ne by discriminate. reflexivity.
  - intros o'. unfold DeliveryCrewOrderUpdateSerializer.save.
    destruct (DeliveryCrewOrderUpdateSerializer.to_internal_value _ _ _) as [vd|e] eqn:E;
      [|discriminate].
    intros [= <-]. apply handler_validated in E.
    destruct vd as [dc st]. cbn in E. subst dc.
    destruct instance, st; split; reflexivity.
Qed.

Lemma handler_update_ignores_delivery_crew_witness :
  o_delivery_crew (set_status ex_order (VBool true)) = o_delivery_crew ex_order /\
  set_status (set_status ex_order (VBool true)) (o_status ex_order) = ex_order.
Proof.
  apply (handler_update_ignores_delivery_crew boolean_status false ex_order
           {[ "status" := VBool true ]} (VStr "bob")).
  reflexivity.
Defined.

(** C6: a manager request holding only a [status] that the status field
    accepts succeeds; the order then has that status, and its delivery crew
    and every other attribute are as they were.  Neither item need be
    present (on a partial update, or when the status column does not
    require one): an empty request leaves the order as it is, and a null
    [delivery_crew] leaves the order without a crew, its status and its
    other attributes unchanged. *)
Theorem manager_update_status_only (status : model_field) (users : list User)
    (partial : bool) (instance : Order) (s s' : value) :
  run_field partial (mf_required status) (mf_allow_null status) VNull
    (mf_to_internal_value status) (Some s) = Valid s' ->
  (exists o',
     ManagerOrderUpdateSerializer.save status users partial instance {[ "status" := s ]}
       = Ok o' /\
     o_status o' = s' /\
     o_delivery_crew o' = o_delivery_crew instance /\
     same_order_but_crew_and_status instance o') /\
  (partial = true \/ mf_required status = false ->
   ManagerOrderUpdateSerializer.save status users partial instance ∅ = Ok instance) /\
  (partial = true \/ mf_required status = false ->
   exists o',
     ManagerOrderUpdateSerializer.save status users partial instance
       {[ "delivery_crew" := VNull ]} = Ok o' /\
     o_delivery_crew o' = None /\
     o_status o' = o_status instance /\
     same_order_but_crew_and_status instance o') /\
  (exists o',
     ManagerOrderUpdateSerializer.save status users partial instance
       {[ "delivery_crew" := VNull; "status" := s ]} = Ok o' /\
     o_delivery_crew o' = None /\
     o_status o' = s' /\
     same_order_but_crew_and_status instance o').
Proof.
  intros Hs.
  assert (Hcrew : forall f : value -> result (option User),
            run_field partial false true None f None = Skip)
    by (intros f; destruct partial; reflexivity).
  assert (Hstatus : partial = true \/ mf_required status = false ->
            run_field partial (mf_required status) (mf_allow_null status) VNull
              (mf_to_internal_value status) None = Skip).
  { intros [-> | Hreq]; [reflexivity|].
    unfold run_field. rewrite Hreq. destruct partial; reflexivity. }
  unfold ManagerOrderUpdateSerializer.save, ManagerOrderUpdateSerializer.to_internal_value.
  split; [|split; [|split]].
  - rewrite lookup_singleton_ne, lookup_singleton_eq by discriminate.
    cbn [related_data]. rewrite Hs, Hcrew.
    eexists. split; [reflexivity|].
    destruct instance. repeat split.
  - intros Hopt. rewrite !lookup_empty. cbn [related_data].
    rewrite Hcrew, (Hstatus Hopt). destruct instance. reflexivity.
  - intros Hopt. rewrite lookup_singleton_eq, lookup_singleton_ne by discriminate.
    cbn [related_data]. rewrite (Hstatus Hopt).
    eexists. split; [reflexivity|].
    destruct instance. repeat split.
  - rewrite lookup_insert_eq, lookup_insert_ne, lookup_singleton_eq by discriminate.
    cbn [related_data]. rewrite Hs.
    eexists. split; [reflexivity|].
    destruct instance. repeat split.
Qed.

Lemma manager_update_status_only_witness :
  exists o',
    ManagerOrderUpdateSerializer.save boolean_status [mkUser 2 "bob"] true
      (set_delivery_crew ex_order (Some (mkUser 2 "bob"))) {[ "status" := VBool true ]}
      = Ok o' /\
    o_status o' = VBool true /\
    o_delivery_crew o' = Some (mkUser 2 "bob") /\
    same_order_but_crew_and_status
      (set_delivery_crew ex_order (Some (mkUser 2 "bob"))) o'.
Proof.
  apply (manager_update_status_only boolean_status [mkUser 2 "bob"] true
           (set_delivery_crew ex_order (Some (mkUser 2 "bob")))
           (VBool true) (VBool true)).
  reflexivity.
Defined.

(** ** The declared price field on stored prices *)

Lemma ndigits_aux_pos (fuel : nat) (n : Z) : 1 <= Decimal.ndigits_aux fuel n.
Proof.
  revert n. induction fuel as [|fuel IH]; intros n; cbn [Decimal.ndigits_aux]; [lia|].
  destruct (n <? 10); [lia|]. specialize (IH (n / 10)). lia.
Qed.

Lemma ndigits_bounds (n : Z) :
  1 <= Decimal.ndigits n /\ Z.abs n < 10 ^ Decimal.ndigits n.
Proof.
  split; [apply ndigits_aux_pos|].
  destruct (Z.eq_dec n 0) as [->|Hn]; [reflexivity|].
  apply ndigits_spec. exact Hn.
Qed.

Lemma ndigits_within (n k : Z) :
  Decimal.ndigits n <= k -> Z.abs n < 10 ^ k.
Proof.
  intros Hk. destruct (ndigits_bounds n) as [H1 Hlt].
  eapply Z.lt_le_trans; [exact Hlt|]. apply Z.pow_le_mono_r; lia.
Qed.

Lemma ndigits_of_price (c : Z) :
  200 <= c <= 999999 -> 3 <= Decimal.ndigits c <= 6.
Proof.
  intros Hc. split.
  - destruct (ndigits_bounds c) as [_ Hlt]. rewrite Z.abs_eq in Hlt by lia.
    destruct (Z.le_gt_cases 3 (Decimal.ndigits c)) as [|Hsmall]; [assumption|].
    exfalso.
    assert (10 ^ Decimal.ndigits c <= 10 ^ 2) by (apply Z.pow_le_mono_r; lia).
    change (10 ^ 2) with 100 in *. lia.
  - apply ndigits_le; [|lia]. rewrite Z.abs_eq by lia.
    change (10 ^ 6) with 1000000. lia.
Qed.

(** The price field quantizes a stored price to itself. *)
Lemma price_field_quantize_cents (c : Z) :
  200 <= c <= 999999 ->
  DecimalField.quantize price_field (Decimal.cents c) = Ok (Decimal.cents c).
Proof.
  intros Hc. pose proof (ndigits_of_price c Hc) as Hlen.
  unfold DecimalField.quantize, DecimalContext.quantize, price_field, Decimal.cents.
  cbn [DecimalField.max_digits DecimalField.decimal_places Decimal.coeff Decimal.exp].
  destruct (Z.eqb_spec c 0); [lia|].
  destruct (Z.ltb_spec 6 (Decimal.ndigits c + -2 - - (2))); [lia|].
  unfold Decimal.rescale. cbn [Decimal.coeff Decimal.exp].
  change (- (2) <=? -2) with true. cbv iota.
  change (10 ^ (-2 - - (2))) with 1. rewrite Z.mul_1_r.
  cbn [Decimal.coeff].
  destruct (Z.ltb_spec 6 (Decimal.ndigits c)); [lia|]. reflexivity.
Qed.

(** The fixed-point text of a two-decimal amount: the hundreds, a point,
    and the two digits of the hundredths. *)
Lemma format_f_cents (c : Z) :
  0 <= c ->
  DecimalContext.format_f (Decimal.cents c)
  = pretty (c / 100) +:+ "." +:+
    DecimalContext.digit (c / 10 mod 10) +:+ DecimalContext.digit (c mod 10).
Proof.
  intros Hc. unfold DecimalContext.format_f, Decimal.cents.
  cbn [Decimal.coeff Decimal.exp].
  destruct (Z.ltb_spec c 0) as [|_]; [lia|].
  change (0 <=? -2) with false. cbv iota.
  change (- -2) with 2. change (10 ^ 2) with 100. change (Z.to_nat 2) with 2%nat.
  rewrite Z.abs_eq by lia.
  cbn [DecimalContext.fixed_digits String.append].
  replace (c mod 100 / 10 mod 10) with (c / 10 mod 10)
    by (Z.to_euclidean_division_equations; lia).
  replace (c mod 100 mod 10) with (c mod 10)
    by (Z.to_euclidean_division_equations; lia).
  reflexivity.
Qed.

(** The price field renders a stored price as its fixed-point text. *)
Lemma price_field_renders_cents (c : Z) :
  200 <= c <= 999999 ->
  DecimalField.to_representation price_field (Decimal.cents c)
  = Ok (VStr (DecimalContext.format_f (Decimal.cents c))).
Proof.
  intros Hc. unfold DecimalField.to_representation.
  rewrite (price_field_quantize_cents c Hc). reflexivity.
Qed.

(** It raises on a price of more than six digits. *)
Lemma price_field_raises_on_long_price (c : Z) :
  1000000 <= c ->
  DecimalField.to_representation price_field (Decimal.cents c) = Raise InvalidOperation.
Proof.
  intros Hc.
  assert (Hlen : 6 < Decimal.ndigits c).
  { destruct (Z.lt_ge_cases 6 (Decimal.ndigits c)) as [|Hle]; [assumption|].
    pose proof (ndigits_within c 6 Hle) as Hw. rewrite Z.abs_eq in Hw by lia.
    change (10 ^ 6) with 1000000 in Hw. lia. }
  unfold DecimalField.to_representation, DecimalField.quantize,
    DecimalContext.quantize, price_field, Decimal.cents.
  cbn [DecimalField.max_digits DecimalField.decimal_places Decimal.coeff Decimal.exp].
  destruct (Z.eqb_spec c 0); [lia|].
  destruct (Z.ltb_spec 6 (Decimal.ndigits c + -2 - - (2))); [reflexivity|lia].
Qed.

(** ** Views *)

Lemma represent_order_items (items : list OrderItem) :
  represent_many OrderItemReadSerializer.fields items
  = Ok (map order_item_view items).
Proof.
  induction items as [|i items IH]; [reflexivity|].
  cbn [represent_many map]. rewrite IH. reflexivity.
Qed.

Lemma order_view (o : Order) :
  to_representation OrderReadSerializer.fields o
  = Ok [ ("id", VInt (o_pk o));
         ("user", VStr (username (o_user o)));
         ("delivery_crew", OrderReadSerializer.get_delivery_crew o);
         ("status", o_status o);
         ("total", VDec (o_total o));
         ("date", VStr (o_date o));
         ("items", VList (map order_item_view (o_items o))) ].
Proof.
  unfold to_representation, OrderReadSerializer.fields.
  cbn [readable_fields List.filter write_only negb represent to_repr field_name].
  rewrite represent_order_items. reflexivity.
Qed.

(** C7: in the view of an order, every item carries a [total_price] equal
    to its stored unit price times its quantity (exactly so whenever the
    product fits the precision of the context), next to that unit price and
    quantity; the item views do not depend on the total stored on the
    order, which the view shows as it is stored. *)
Theorem order_item_total_price_recomputed (o : Order) :
  exists r,
    to_representation OrderReadSerializer.fields o = Ok r /\
    assoc "items" r = Some (VList (map order_item_view (o_items o))) /\
    assoc "total" r = Some (VDec (o_total o)) /\
    (forall i, In i (o_items o) ->
       exists d,
         order_item_view i = VDict d /\
         assoc "unit_price" d = Some (VDec (oi_unit_price i)) /\
         assoc "quantity" d = Some (VInt (oi_quantity i)) /\
         assoc "total_price" d = Some (VDec (OrderItemReadSerializer.get_total_price i)) /\
         (Z.abs (Decimal.coeff (oi_unit_price i) * oi_quantity i) < 10 ^ Decimal.prec ->
          OrderItemReadSerializer.get_total_price i
          = Decimal.mk (Decimal.coeff (oi_unit_price i) * oi_quantity i)
                       (Decimal.exp (oi_unit_price i)))) /\
    (forall total r',
       to_representation OrderReadSerializer.fields (set_total o total) = Ok r' ->
       assoc "items" r' = assoc "items" r).
Proof.
  eexists. split; [apply order_view|].
  split; [reflexivity|]. split; [reflexivity|]. split.
  - intros i _. eexists. split; [reflexivity|].
    repeat split.
    intros Hfit.
    unfold OrderItemReadSerializer.get_total_price, OrderItem_total_price.
    rewrite mul_exact by exact Hfit.
    cbn [Decimal.of_int Decimal.coeff Decimal.exp]. rewrite Z.add_0_r. reflexivity.
  - intros total r'. rewrite order_view. intros [= <-]. reflexivity.
Qed.

Lemma order_item_total_price_recomputed_witness :
  OrderItemReadSerializer.get_total_price
    (mkOrderItem 1 (menu_item_priced 3 "Pasta" 1400) 2 (Decimal.cents 1250))
  = Decimal.cents 2500.
Proof.
  destruct (order_item_total_price_recomputed ex_order) as (r & _ & _ & _ & Hitems & _).
  destruct (Hitems (mkOrderItem 1 (menu_item_priced 3 "Pasta" 1400) 2 (Decimal.cents 1250)))
    as (d & _ & _ & _ & _ & Hexact).
  - left. reflexivity.
  - apply Hexact. vm_compute. reflexivity.
Defined.

(** The readable fields of the menu item serializer, whatever the item. *)
Lemma menu_item_view_keys (obj : MenuItem) (r : list (string * value)) :
  to_representation MenuItemSerializer_fields obj = Ok r ->
  keys r = ["id"; "dish"; "price"; "price_after_tax"; "stock"; "category";
            "is_item_of_the_day"].
Proof.
  unfold to_representation, MenuItemSerializer_fields.
  cbn [readable_fields List.filter write_only negb represent to_repr field_name].
  destruct (DecimalField.to_representation price_field (mi_price obj)) as [p|e];
    [|discriminate].
  destruct (get_price_after_tax obj) as [d|e];
    cbn [decimal_value nested to_representation readable_fields List.filter
         CategoryMiniSerializer_fields write_only negb represent to_repr field_name];
    [|discriminate].
  intros [= <-]. reflexivity.
Qed.

(** C9, as the specification states it, fails: the view of a menu item has
    no entry [category_id]. *)
Lemma menu_item_view_without_category_id :
  exists r,
    to_representation MenuItemSerializer_fields (menu_item_priced 3 "Pasta" 1250) = Ok r /\
    assoc "category_id" r = None /\
    keys r <> menu_item_meta_fields.
Proof.
  eexists. split; [vm_compute; reflexivity|]. split; [reflexivity|]. discriminate.
Qed.

(** C9, amended: the view of a menu item with a stored price (two
    decimals, from 2.00 to 9999.99) holds exactly the entries id, dish,
    price, price_after_tax, stock, category and is_item_of_the_day, in this
    order, the price as its fixed-point text and the price after tax as the
    decimal [get_price_after_tax] returns; [category_id] is a write-only
    field, read from a request and absent from the view. *)
Theorem menu_item_view_fields (obj : MenuItem) (c : Z) :
  mi_price obj = Decimal.cents c ->
  200 <= c <= 999999 ->
  exists r,
    to_representation MenuItemSerializer_fields obj = Ok r /\
    keys r = ["id"; "dish"; "price"; "price_after_tax"; "stock"; "category";
              "is_item_of_the_day"] /\
    assoc "category_id" r = None /\
    assoc "price" r = Some (VStr (DecimalContext.format_f (Decimal.cents c))) /\
    assoc "price_after_tax" r
      = Some (VDec (Decimal.cents (Decimal.round_half_even (c * 110) 100))) /\
    map field_name MenuItemSerializer_fields = menu_item_meta_fields /\
    map field_name (writable_fields MenuItemSerializer_fields)
    = ["dish"; "price"; "stock"; "category_id"].
Proof.
  intros Hp Hc.
  assert (Hb : c * 110 < 10 ^ Decimal.prec).
  { change (10 ^ Decimal.prec) with 10000000000000000000000000000. lia. }
  pose proof (get_price_after_tax_cents obj c Hp ltac:(lia) Hb) as Htax.
  pose proof (price_field_renders_cents c Hc) as Hprice.
  eexists. split.
  - unfold to_representation at 1. unfold MenuItemSerializer_fields.
    cbn [readable_fields List.filter write_only negb represent to_repr field_name].
    rewrite Hp, Hprice, Htax.
    unfold to_representation, CategoryMiniSerializer_fields.
    cbn [decimal_value nested readable_fields List.filter write_only negb
         represent to_repr field_name].
    reflexivity.
  - repeat split; reflexivity.
Qed.

Lemma menu_item_view_fields_witness :
  exists r,
    to_representation MenuItemSerializer_fields (menu_item_priced 3 "Pasta" 1250) = Ok r /\
    keys r = ["id"; "dish"; "price"; "price_after_tax"; "stock"; "category";
              "is_item_of_the_day"] /\
    assoc "category_id" r = None /\
    assoc "price" r = Some (VStr (DecimalContext.format_f (Decimal.cents 1250))) /\
    assoc "price_after_tax" r
      = Some (VDec (Decimal.cents (Decimal.round_half_even (1250 * 110) 100))) /\
    map field_name MenuItemSerializer_fields = menu_item_meta_fields /\
    map field_name (writable_fields MenuItemSerializer_fields)
    = ["dish"; "price"; "stock"; "category_id"].
Proof.
  apply (menu_item_view_fields (menu_item_priced 3 "Pasta" 1250) 1250).
  - reflexivity.
  - lia.
Defined.

(** A price of more than six digits cannot be shown: the price field
    raises, and so does the view. *)
Lemma menu_item_view_raises_on_long_price (obj : MenuItem) (c : Z) :
  mi_price obj = Decimal.cents c ->
  1000000 <= c ->
  to_representation MenuItemSerializer_fields obj = Raise InvalidOperation.
Proof.
  intros Hp Hc. unfold to_representation, MenuItemSerializer_fields.
  cbn [readable_fields List.filter write_only negb represent to_repr field_name].
  rewrite Hp, (price_field_raises_on_long_price c Hc). reflexivity.
Qed.

(** * Further properties of the serializers *)

(** ** The cart: rows that exist already, other rows, invariants *)

Section CartRows.

Import CartItemSerializer.

Lemma pk_determines_row (l : list CartItem) (a b : CartItem) :
  NoDup (map ci_pk l) -> In a l -> In b l -> ci_pk a = ci_pk b -> a = b.
Proof.
  induction l as [|r l IH]; cbn [map]; [intros _ []|].
  rewrite NoDup_cons. intros [Hr Hl] [<-|Ha] [<-|Hb] Hpk; try reflexivity.
  - exfalso. apply Hr. apply list_elem_of_In. rewrite Hpk. apply in_map. exact Hb.
  - exfalso. apply Hr. apply list_elem_of_In. rewrite <- Hpk. apply in_map. exact Ha.
  - apply IH; assumption.
Qed.

Lemma overwrite_pk (obj' r : CartItem) : ci_pk (overwrite obj' r) = ci_pk r.
Proof.
  unfold overwrite. destruct (Z.eqb_spec (ci_pk r) (ci_pk obj')); congruence.
Qed.

Lemma save_existing (objects : table CartItem) (obj obj' : CartItem) :
  In obj (rows objects) -> ci_pk obj' = ci_pk obj ->
  save objects obj' = mkTable (map (overwrite obj') (rows objects)) (next_pk objects).
Proof.
  intros Hin Hpk. unfold save.
  assert (Hex : existsb (fun r => ci_pk r =? ci_pk obj') (rows objects) = true).
  { apply existsb_exists. exists obj. split; [exact Hin|]. apply Z.eqb_eq. congruence. }
  rewrite Hex. reflexivity.
Qed.

Lemma overwrite_other (l : list CartItem) (obj obj' r : CartItem) :
  NoDup (map ci_pk l) -> In obj l -> ci_pk obj' = ci_pk obj ->
  In r l -> r <> obj -> overwrite obj' r = r.
Proof.
  intros Hnd Hobj Hpk Hr Hne. unfold overwrite.
  destruct (Z.eqb_spec (ci_pk r) (ci_pk obj')) as [E|]; [|reflexivity].
  exfalso. apply Hne. apply (pk_determines_row l); congruence.
Qed.

Lemma overwrite_self (obj obj' : CartItem) :
  ci_pk obj' = ci_pk obj -> overwrite obj' obj = obj'.
Proof. intros Hpk. unfold overwrite. rewrite Hpk, Z.eqb_refl. reflexivity. Qed.

(** A test that does not tell [obj'] from [obj] selects the same rows
    before and after the overwrite. *)
Lemma filter_overwrite (p : CartItem -> bool) (l : list CartItem)
    (obj obj' : CartItem) :
  NoDup (map ci_pk l) -> In obj l -> ci_pk obj' = ci_pk obj -> p obj' = p obj ->
  List.filter p (map (overwrite obj') l) = map (overwrite obj') (List.filter p l).
Proof.
  intros Hnd Hobj Hpk Hp. rewrite filter_map_swap. f_equal.
  apply List.filter_ext_in. intros r Hr.
  destruct (Z.eq_dec (ci_pk r) (ci_pk obj)) as [E|Hne].
  - rewrite (pk_determines_row l r obj Hnd Hr Hobj E).
    rewrite overwrite_self by exact Hpk. exact Hp.
  - rewrite (overwrite_other l obj obj' r); auto. congruence.
Qed.

Lemma same_pair_set_quantity (user menu_item : Z) (obj : CartItem) (q : Z) :
  same_pair user menu_item (set_quantity obj q) = same_pair user menu_item obj.
Proof. reflexivity. Qed.

Lemma same_pair_eq (user menu_item : Z) (r : CartItem) :
  same_pair user menu_item r = true <-> ci_user r = user /\ ci_menu_item r = menu_item.
Proof.
  unfold same_pair. rewrite andb_true_iff, !Z.eqb_eq. reflexivity.
Qed.

Lemma filter_singleton_in {A : Type} (p : A -> bool) (l : list A) (x : A) :
  List.filter p l = [x] -> In x l /\ p x = true.
Proof.
  intros H. apply filter_In. rewrite H. left. reflexivity.
Qed.

End CartRows.

Section CartAdds.

Import CartItemSerializer.

(** An add for a pair that has its row already: the row keeps its primary
    key and its unit price (whatever the menu item costs now), its quantity
    grows by the requested amount, no row is added, the row stays the only
    one of the pair, and every other row is still there. *)
Theorem cart_add_to_existing_row (objects : table CartItem) (user : Z)
    (data : validated_data) (obj : CartItem) :
  NoDup (map ci_pk (rows objects)) ->
  List.filter (same_pair user (mi_pk (vd_menu_item data))) (rows objects) = [obj] ->
  exists obj' objects',
    create objects user data = Ok (obj', objects') /\
    ci_pk obj' = ci_pk obj /\
    ci_quantity obj' = ci_quantity obj + default 1 (vd_quantity data) /\
    ci_unit_price obj' = ci_unit_price obj /\
    length (rows objects') = length (rows objects) /\
    next_pk objects' = next_pk objects /\
    List.filter (same_pair user (mi_pk (vd_menu_item data))) (rows objects') = [obj'] /\
    (forall r, In r (rows objects) -> r <> obj -> In r (rows objects')).
Proof.
  intros Hnd Hone.
  destruct (filter_singleton_in _ _ _ Hone) as [Hin _].
  set (obj' := set_quantity obj (ci_quantity obj + default 1 (vd_quantity data))).
  exists obj', (save objects obj').
  split; [apply create_again; exact Hone|].
  rewrite (save_existing objects obj obj' Hin eq_refl). cbn [rows next_pk].
  repeat split.
  - apply length_map.
  - rewrite (filter_overwrite (same_pair user (mi_pk (vd_menu_item data))) _
               obj obj' Hnd Hin eq_refl eq_refl), Hone.
    cbn [map]. rewrite overwrite_self by reflexivity. reflexivity.
  - intros r Hr Hne.
    rewrite <- (overwrite_other (rows objects) obj obj' r Hnd Hin eq_refl Hr Hne).
    apply in_map. exact Hr.
Qed.

Lemma cart_add_to_existing_row_witness :
  exists obj' objects',
    create (mkTable [mkCartItem 1 8 4 1 (Decimal.cents 600);
                     mkCartItem 2 8 3 2 (Decimal.cents 1250)] 3) 8
           (mkValidated (menu_item_priced 3 "Pasta" 1400) None)
      = Ok (obj', objects') /\
    ci_pk obj' = 2 /\
    ci_quantity obj' = 2 + 1 /\
    ci_unit_price obj' = Decimal.cents 1250 /\
    length (rows objects') = 2%nat /\
    next_pk objects' = 3 /\
    List.filter (same_pair 8 3) (rows objects') = [obj'] /\
    (forall r, In r [mkCartItem 1 8 4 1 (Decimal.cents 600);
                     mkCartItem 2 8 3 2 (Decimal.cents 1250)] ->
               r <> mkCartItem 2 8 3 2 (Decimal.cents 1250) -> In r (rows objects')).
Proof.
  apply (cart_add_to_existing_row
           (mkTable [mkCartItem 1 8 4 1 (Decimal.cents 600);
                     mkCartItem 2 8 3 2 (Decimal.cents 1250)] 3) 8
           (mkValidated (menu_item_priced 3 "Pasta" 1400) None)
           (mkCartItem 2 8 3 2 (Decimal.cents 1250))).
  - compute_done.
  - reflexivity.
Defined.

(** On a table with distinct primary keys below the next one and at most
    one row per (user, menu item), [create] never raises, returns the one
    row of the pair, and leaves a table of the same kind. *)
Theorem cart_create_keeps_invariants (objects : table CartItem) (user : Z)
    (data : validated_data) :
  keys_fresh objects ->
  one_row_per_pair objects ->
  exists obj objects',
    create objects user data = Ok (obj, objects') /\
    keys_fresh objects' /\
    one_row_per_pair objects' /\
    List.filter (same_pair user (mi_pk (vd_menu_item data))) (rows objects') = [obj].
Proof.
  intros [Hnd Hlt] Hone.
  destruct (List.filter (same_pair user (mi_pk (vd_menu_item data))) (rows objects))
    as [|obj [|obj2 rest]] eqn:Hf.
  - (* no row yet: one is created *)
    eexists. eexists. split; [apply create_first; exact Hf|].
    set (obj := mkCartItem _ _ _ _ _).
    split; [|split].
    + split; cbn [rows next_pk].
      * rewrite map_app. apply NoDup_app. split; [exact Hnd|]. split.
        -- intros x Hx Hx'. cbn in Hx'. apply list_elem_of_In in Hx, Hx'.
           destruct Hx' as [<-|[]].
           apply in_map_iff in Hx. destruct Hx as (r & Hr & Hin).
           rewrite Forall_forall in Hlt. apply list_elem_of_In in Hin.
           specialize (Hlt r Hin). cbn in Hr. lia.
        -- cbn. apply NoDup_cons. split; [set_solver|apply NoDup_nil; exact I].
      * apply Forall_app. split.
        -- eapply Forall_impl; [exact Hlt|]. cbn. intros; lia.
        -- constructor; [cbn; lia|constructor].
    + intros u m. cbn [rows]. rewrite List.filter_app, length_app.
      cbn [List.filter].
      destruct (same_pair u m obj) eqn:E.
      * apply same_pair_eq in E. cbn in E. destruct E as [<- <-].
        rewrite Hf. cbn. lia.
      * specialize (Hone u m). cbn. lia.
    + cbn [rows]. rewrite List.filter_app, Hf. cbn [List.filter app].
      unfold obj. rewrite same_pair_new. reflexivity.
  - (* the row of the pair is updated *)
    destruct (filter_singleton_in _ _ _ Hf) as [Hin _].
    eexists. eexists. split; [apply create_again; exact Hf|].
    set (obj' := set_quantity obj _).
    rewrite (save_existing objects obj obj' Hin eq_refl).
    split; [|split].
    + split; cbn [rows next_pk].
      * rewrite map_map.
        rewrite (map_ext (fun r => ci_pk (overwrite obj' r)) ci_pk)
          by (intros; apply overwrite_pk).
        exact Hnd.
      * apply Forall_forall. intros r Hr. apply list_elem_of_In in Hr.
        apply in_map_iff in Hr. destruct Hr as (r0 & <- & Hr0).
        rewrite overwrite_pk. rewrite Forall_forall in Hlt.
        apply Hlt. apply list_elem_of_In. exact Hr0.
    + intros u m. cbn [rows].
      rewrite (filter_overwrite (same_pair u m) _ obj obj' Hnd Hin eq_refl eq_refl),
        length_map.
      apply Hone.
    + cbn [rows].
      rewrite (filter_overwrite (same_pair user (mi_pk (vd_menu_item data))) _
                 obj obj' Hnd Hin eq_refl eq_refl), Hf.
      cbn [map]. rewrite overwrite_self by reflexivity. reflexivity.
  - (* two rows of one pair: excluded *)
    specialize (Hone user (mi_pk (vd_menu_item data))). rewrite Hf in Hone.
    cbn in Hone. lia.
Qed.

Lemma cart_create_keeps_invariants_witness :
  exists obj objects',
    create (mkTable [mkCartItem 1 8 4 1 (Decimal.cents 600)] 2) 8
           (mkValidated (menu_item_priced 3 "Pasta" 1250) (Some 2))
      = Ok (obj, objects') /\
    keys_fresh objects' /\
    one_row_per_pair objects' /\
    List.filter (same_pair 8 3) (rows objects') = [obj].
Proof.
  apply (cart_create_keeps_invariants
           (mkTable [mkCartItem 1 8 4 1 (Decimal.cents 600)] 2) 8
           (mkValidated (menu_item_priced 3 "Pasta" 1250) (Some 2))).
  - split; cbn.
    + compute_done.
    + repeat constructor.
  - intros u m. cbn [rows List.filter].
    destruct (same_pair u m _); cbn [length]; lia.
Defined.

(** An add for one (user, menu item) pair leaves the rows of every other
    pair exactly as they were: another user's cart, and the other items of
    the same user. *)
Theorem cart_add_leaves_other_pairs (objects objects' : table CartItem)
    (user : Z) (data : validated_data) (obj : CartItem) (u m : Z) :
  NoDup (map ci_pk (rows objects)) ->
  create objects user data = Ok (obj, objects') ->
  u <> user \/ m <> mi_pk (vd_menu_item data) ->
  List.filter (same_pair u m) (rows objects')
  = List.filter (same_pair u m) (rows objects).
Proof.
  intros Hnd Hcreate Hother.
  assert (Hpair : forall r, same_pair user (mi_pk (vd_menu_item data)) r = true ->
                            same_pair u m r = false).
  { intros r Hr. apply same_pair_eq in Hr. destruct Hr as [Hu Hm].
    destruct (same_pair u m r) eqn:E; [|reflexivity].
    apply same_pair_eq in E. destruct E as [Hu' Hm']. exfalso.
    destruct Hother as [H|H]; apply H; congruence. }
  destruct (List.filter (same_pair user (mi_pk (vd_menu_item data))) (rows objects))
    as [|found [|found2 rest]] eqn:Hf.
  - rewrite (create_first objects user data Hf) in Hcreate.
    injection Hcreate as <- <-. cbn [rows].
    rewrite List.filter_app. cbn [List.filter].
    rewrite Hpair by apply same_pair_new. apply app_nil_r.
  - rewrite (create_again objects user data found Hf) in Hcreate.
    injection Hcreate as <- <-.
    destruct (filter_singleton_in _ _ _ Hf) as [Hin Hfound].
    set (obj' := set_quantity found _).
    rewrite (save_existing objects found obj' Hin eq_refl). cbn [rows].
    rewrite (filter_overwrite (same_pair u m) _ found obj' Hnd Hin eq_refl eq_refl).
    rewrite <- (map_id (List.filter (same_pair u m) (rows objects))) at 2.
    apply map_ext_in. intros r Hr. apply filter_In in Hr. destruct Hr as [Hr Hsel].
    apply (overwrite_other (rows objects) found obj' r Hnd Hin eq_refl Hr).
    intros ->. rewrite (Hpair found Hfound) in Hsel. discriminate.
  - unfold create, get_or_create in Hcreate. rewrite Hf in Hcreate. discriminate.
Qed.

Lemma cart_add_leaves_other_pairs_witness :
  List.filter (same_pair 9 3)
    [mkCartItem 1 9 3 1 (Decimal.cents 1250); mkCartItem 2 8 3 7 (Decimal.cents 1250)]
  = List.filter (same_pair 9 3)
    [mkCartItem 1 9 3 1 (Decimal.cents 1250); mkCartItem 2 8 3 2 (Decimal.cents 1250)].
Proof.
  apply (cart_add_leaves_other_pairs
           (mkTable [mkCartItem 1 9 3 1 (Decimal.cents 1250);
                     mkCartItem 2 8 3 2 (Decimal.cents 1250)] 3)
           (mkTable [mkCartItem 1 9 3 1 (Decimal.cents 1250);
                     mkCartItem 2 8 3 7 (Decimal.cents 1250)] 3)
           8 (mkValidated (menu_item_priced 3 "Pasta" 1400) (Some 5))
           (mkCartItem 2 8 3 7 (Decimal.cents 1250)) 9 3).
  - compute_done.
  - reflexivity.
  - left. lia.
Defined.

End CartAdds.

(** ** Prices: rounding, ordering, and the declared price field *)

(** Round-half-even of [c * 110 / 100] against round-half-up. *)
Lemma half_even_against_half_up (c : Z) :
  0 < c ->
  Decimal.round_half_even (c * 110) 100
  = (c * 110 + 50) / 100 - (if c mod 20 =? 15 then 1 else 0).
Proof.
  intros Hc. unfold Decimal.round_half_even.
  rewrite Z.abs_eq, Z.sgn_pos, Z.mul_1_l by lia.
  set (q := c * 110 / 100). set (m := (c * 110) mod 100).
  assert (Hup : (c * 110 + 50) / 100 = if 50 <=? m then q + 1 else q).
  { subst q m. destruct (Z.leb_spec 50 ((c * 110) mod 100));
      Z.to_euclidean_division_equations; lia. }
  rewrite Hup.
  assert (Hodd : Z.odd q = true <-> q mod 2 = 1).
  { rewrite Zodd_mod. apply Z.eqb_eq. }
  assert (Htie : m = 50 /\ q mod 2 = 0 <-> c mod 20 = 15).
  { subst q m. Z.to_euclidean_division_equations. lia. }
  pose proof (Z.mod_pos_bound q 2 ltac:(lia)) as Hq2.
  destruct (Z.eqb_spec (c mod 20) 15) as [H15|H15].
  - apply Htie in H15. destruct H15 as [Hm Hq].
    destruct (Z.ltb_spec 100 (2 * m)); [lia|]. cbn [orb].
    destruct (Z.eqb_spec (2 * m) 100); [|lia]. cbn [andb].
    destruct (Z.odd q) eqn:E.
    + assert (q mod 2 = 1) by (apply Hodd; reflexivity). lia.
    + destruct (Z.leb_spec 50 m); lia.
  - destruct (Z.ltb_spec 100 (2 * m)) as [Hhi|Hlo]; cbn [orb].
    + destruct (Z.leb_spec 50 m); lia.
    + destruct (Z.eqb_spec (2 * m) 100) as [Heq|Hne]; cbn [andb].
      * destruct (Z.odd q) eqn:E.
        -- destruct (Z.leb_spec 50 m); lia.
        -- exfalso. apply H15. apply Htie. split; [lia|].
           assert (q mod 2 <> 1) by (intros H1; apply Hodd in H1; discriminate).
           lia.
      * destruct (Z.leb_spec 50 m); lia.
Qed.

(** [get_price_after_tax] gives what round-half-up would give except on
    the prices of [c] hundredths with [c mod 20 = 15] (2.15, 2.35, 2.55, ...),
    where the exact amount ends in half a hundredth above an even one; on
    those it returns one hundredth less than round-half-up. *)
Theorem price_after_tax_half_up_iff (obj : MenuItem) (c : Z) :
  mi_price obj = Decimal.cents c ->
  200 <= c ->
  c * 110 < 10 ^ Decimal.prec ->
  (get_price_after_tax obj = Ok (price_after_tax_half_up c) <-> c mod 20 <> 15) /\
  (c mod 20 = 15 ->
   get_price_after_tax obj
   = Ok (Decimal.cents (Decimal.coeff (price_after_tax_half_up c) - 1))).
Proof.
  intros Hp Hc Hb.
  rewrite (get_price_after_tax_cents obj c Hp ltac:(lia) Hb).
  rewrite (half_even_against_half_up c) by lia.
  unfold price_after_tax_half_up, Decimal.cents. cbn [Decimal.coeff].
  destruct (Z.eqb_spec (c mod 20) 15) as [H15|H15].
  - split.
    + split; [intros [= H]; lia|intros H; contradiction].
    + intros _. reflexivity.
  - rewrite Z.sub_0_r. split.
    + split; [intros _; exact H15|reflexivity].
    + intros H; contradiction.
Qed.

Lemma price_after_tax_half_up_iff_witness :
  (get_price_after_tax (menu_item_priced 1 "Pasta" 215)
     = Ok (price_after_tax_half_up 215) <-> 215 mod 20 <> 15) /\
  (215 mod 20 = 15 ->
   get_price_after_tax (menu_item_priced 1 "Pasta" 215)
   = Ok (Decimal.cents (Decimal.coeff (price_after_tax_half_up 215) - 1))).
Proof.
  apply (price_after_tax_half_up_iff (menu_item_priced 1 "Pasta" 215) 215).
  - reflexivity.
  - lia.
  - vm_compute. reflexivity.
Defined.

(** The price after tax is above the base price, and a higher base price
    has a strictly higher price after tax: rounding never merges two
    prices. *)
Theorem price_after_tax_strictly_increasing (obj1 obj2 : MenuItem) (c1 c2 : Z) :
  mi_price obj1 = Decimal.cents c1 ->
  mi_price obj2 = Decimal.cents c2 ->
  200 <= c1 -> c1 < c2 ->
  c2 * 110 < 10 ^ Decimal.prec ->
  exists r1 r2,
    get_price_after_tax obj1 = Ok (Decimal.cents r1) /\
    get_price_after_tax obj2 = Ok (Decimal.cents r2) /\
    c1 < r1 /\ c2 < r2 /\ r1 < r2.
Proof.
  intros Hp1 Hp2 Hc1 Hlt Hb.
  exists (Decimal.round_half_even (c1 * 110) 100),
         (Decimal.round_half_even (c2 * 110) 100).
  destruct (round_half_even_nearest (c1 * 110) 100 ltac:(lia) ltac:(lia))
    as (_ & Hn1 & _).
  destruct (round_half_even_nearest (c2 * 110) 100 ltac:(lia) ltac:(lia))
    as (_ & Hn2 & _).
  split; [apply get_price_after_tax_cents; [assumption|lia|lia]|].
  split; [apply get_price_after_tax_cents; [assumption|lia|lia]|].
  lia.
Qed.

Lemma price_after_tax_strictly_increasing_witness :
  exists r1 r2,
    get_price_after_tax (menu_item_priced 1 "Pasta" 214) = Ok (Decimal.cents r1) /\
    get_price_after_tax (menu_item_priced 2 "Soup" 215) = Ok (Decimal.cents r2) /\
    214 < r1 /\ 215 < r2 /\ r1 < r2.
Proof.
  apply (price_after_tax_strictly_increasing
           (menu_item_priced 1 "Pasta" 214) (menu_item_priced 2 "Soup" 215) 214 215).
  - reflexivity.
  - reflexivity.
  - lia.
  - lia.
  - vm_compute. reflexivity.
Defined.

(** Every price the declared price field accepts is the submitted amount
    at two decimal places, from 2.00 to 9999.99, and [get_price_after_tax]
    returns on it (it never raises on a validated price), an amount from
    2.20 to 10999.99. *)
Theorem accepted_price_has_price_after_tax (v p : Decimal.t) :
  DecimalField.run_validation price_field v = Ok p ->
  Decimal.exp p = -2 /\
  200 <= Decimal.coeff p <= 999999 /\
  -2 <= Decimal.exp v /\
  Decimal.coeff p = Decimal.coeff v * 10 ^ (Decimal.exp v + 2) /\
  (forall obj, mi_price obj = p ->
     exists r, get_price_after_tax obj = Ok (Decimal.cents r) /\ 220 <= r <= 1099999).
Proof.
  unfold DecimalField.run_validation, DecimalField.to_internal_value,
    DecimalField.validate_precision, DecimalField.quantize, price_field.
  cbn [DecimalField.max_digits DecimalField.decimal_places DecimalField.min_value].
  set (len := Decimal.ndigits (Decimal.coeff v)). set (e := Decimal.exp v).
  destruct (6 <? _); [discriminate|].
  destruct (Z.ltb_spec 2 (if 0 <=? e then 0 else Z.abs e)) as [|Hplaces]; [discriminate|].
  destruct (6 - 2 <? _); [discriminate|].
  assert (He : -2 <= e).
  { destruct (Z.leb_spec 0 e); lia. }
  unfold DecimalContext.quantize. cbn [Decimal.exp Decimal.coeff]. fold e.
  destruct (Z.eqb_spec (Decimal.coeff v) 0) as [Hz|Hnz].
  { change (DecimalContext.lt_int
              (DecimalContext.fix_ 6 (Decimal.mk 0 (- (2)))) 2) with true.
    cbv iota. discriminate. }
  destruct (6 <? _); [discriminate|].
  unfold Decimal.rescale. fold e.
  destruct (Z.leb_spec (- (2)) e) as [_|]; [|lia].
  cbn [Decimal.coeff Decimal.exp].
  destruct (Z.ltb_spec 6 (Decimal.ndigits (Decimal.coeff v * 10 ^ (e - - (2)))))
    as [|Hdigits]; [discriminate|].
  unfold DecimalContext.lt_int. cbn [Decimal.coeff Decimal.exp].
  change (0 <=? - (2)) with false. cbv iota.
  change (2 * 10 ^ (- - (2))) with 200.
  destruct (Z.ltb_spec (Decimal.coeff v * 10 ^ (e - - (2))) 200) as [|Hmin];
    [discriminate|].
  intros [= <-]. cbn [Decimal.coeff Decimal.exp].
  replace (e - - (2)) with (e + 2) in * by lia.
  set (c := Decimal.coeff v * 10 ^ (e + 2)) in *.
  assert (Hc : c <= 999999).
  { pose proof (ndigits_within c 6 Hdigits) as Hw.
    change (10 ^ 6) with 1000000 in Hw. lia. }
  repeat split; try lia.
  intros obj Hobj.
  exists (Decimal.round_half_even (c * 110) 100).
  assert (Hb : c * 110 < 10 ^ Decimal.prec).
  { change (10 ^ Decimal.prec) with 10000000000000000000000000000. lia. }
  split; [apply get_price_after_tax_cents; [exact Hobj|lia|exact Hb]|].
  destruct (round_half_even_nearest (c * 110) 100 ltac:(lia) ltac:(lia))
    as (_ & Hn & _).
  lia.
Qed.

Lemma accepted_price_has_price_after_tax_witness :
  Decimal.exp (Decimal.mk 1250 (-2)) = -2 /\
  200 <= Decimal.coeff (Decimal.mk 1250 (-2)) <= 999999 /\
  -2 <= Decimal.exp (Decimal.mk 125 (-1)) /\
  Decimal.coeff (Decimal.mk 1250 (-2))
    = Decimal.coeff (Decimal.mk 125 (-1)) * 10 ^ (Decimal.exp (Decimal.mk 125 (-1)) + 2) /\
  (forall obj, mi_price obj = Decimal.mk 1250 (-2) ->
     exists r, get_price_after_tax obj = Ok (Decimal.cents r) /\ 220 <= r <= 1099999).
Proof.
  apply (accepted_price_has_price_after_tax (Decimal.mk 125 (-1)) (Decimal.mk 1250 (-2))).
  reflexivity.
Defined.

(** A two-decimal amount from 2.00 to 9999.99 passes the price field
    unchanged, and the field renders it as the text of that same amount: its
    whole part, a point, and the two digits of its hundredths.  A stored
    price validates again to itself. *)
Theorem price_field_round_trip (c : Z) :
  200 <= c <= 999999 ->
  DecimalField.run_validation price_field (Decimal.cents c) = Ok (Decimal.cents c) /\
  DecimalField.to_representation price_field (Decimal.cents c)
    = Ok (VStr (pretty (c / 100) +:+ "." +:+
                DecimalContext.digit (c / 10 mod 10) +:+
                DecimalContext.digit (c mod 10))).
Proof.
  intros Hc. pose proof (ndigits_of_price c Hc) as Hlen.
  pose proof (price_field_quantize_cents c Hc) as Hq.
  split.
  - unfold DecimalField.run_validation, DecimalField.to_internal_value,
      DecimalField.validate_precision.
    unfold price_field at 1 2 3 4 5 6 7 8.
    cbn [DecimalField.max_digits DecimalField.decimal_places Decimal.coeff Decimal.exp
         Decimal.cents].
    change (0 <=? -2) with false. cbv iota. change (Z.abs (-2)) with 2.
    destruct (Z.ltb_spec 2 (Decimal.ndigits c)); [|lia].
    destruct (Z.ltb_spec 6 (Decimal.ndigits c)); [lia|].
    change (2 <? 2) with false. cbv iota.
    destruct (Z.ltb_spec (6 - 2) (Decimal.ndigits c - 2)); [lia|].
    fold (Decimal.cents c). rewrite Hq.
    cbn [DecimalField.min_value price_field].
    unfold DecimalContext.lt_int, Decimal.cents. cbn [Decimal.coeff Decimal.exp].
    change (0 <=? -2) with false. cbv iota. change (2 * 10 ^ (- -2)) with 200.
    destruct (Z.ltb_spec c 200); [lia|]. reflexivity.
  - rewrite (price_field_renders_cents c Hc), format_f_cents by lia. reflexivity.
Qed.

Lemma price_field_round_trip_witness :
  DecimalField.run_validation price_field (Decimal.cents 1250) = Ok (Decimal.cents 1250) /\
  DecimalField.to_representation price_field (Decimal.cents 1250) = Ok (VStr "12.50").
Proof.
  apply (price_field_round_trip 1250). lia.
Defined.

(** ** Dish names: the casing of the candidate *)

(** Two candidates that differ only in the case of their letters are
    accepted or rejected together, on a create and on an update alike. *)
Theorem validate_dish_ignores_candidate_case (objects : list MenuItem)
    (instance : option MenuItem) (v v' : string) :
  iexact v v' = true ->
  (MenuItemSerializer.validate_dish objects instance v = Ok v <->
   MenuItemSerializer.validate_dish objects instance v' = Ok v') /\
  (MenuItemSerializer.validate_dish objects instance v
     = Raise (ValidationError duplicate_dish) <->
   MenuItemSerializer.validate_dish objects instance v'
     = Raise (ValidationError duplicate_dish)).
Proof.
  intros Hv. unfold iexact in Hv. apply String.eqb_eq in Hv.
  assert (Hsame : List.filter (fun m => iexact (mi_name m) v) objects
                  = List.filter (fun m => iexact (mi_name m) v') objects).
  { apply List.filter_ext. intros m. unfold iexact. rewrite Hv. reflexivity. }
  unfold MenuItemSerializer.validate_dish. rewrite Hsame.
  destruct instance as [inst|]; destruct (qs_exists _);
    split; split; intros H; try reflexivity; discriminate.
Qed.

Lemma validate_dish_ignores_candidate_case_witness :
  (MenuItemSerializer.validate_dish [menu_item_priced 3 "Pasta" 1250] None "pasta"
     = Ok "pasta" <->
   MenuItemSerializer.validate_dish [menu_item_priced 3 "Pasta" 1250] None "PASTA"
     = Ok "PASTA") /\
  (MenuItemSerializer.validate_dish [menu_item_priced 3 "Pasta" 1250] None "pasta"
     = Raise (ValidationError duplicate_dish) <->
   MenuItemSerializer.validate_dish [menu_item_priced 3 "Pasta" 1250] None "PASTA"
     = Raise (ValidationError duplicate_dish)).
Proof.
  apply (validate_dish_ignores_candidate_case
           [menu_item_priced 3 "Pasta" 1250] None "pasta" "PASTA").
  reflexivity.
Defined.

(** ** Ratings: other pairs *)

(** A rating that was accepted changes nothing for any other (user, menu
    item) pair: their submissions validate as before. *)
Theorem rating_leaves_other_pairs (model_kwargs : string -> gmap string Z)
    (objects objects1 : table Rating) (a a' : RatingSerializer.attrs) (obj : Rating) :
  RatingSerializer.submit model_kwargs objects a = Ok (obj, objects1) ->
  RatingSerializer.a_user a' <> RatingSerializer.a_user a \/
  RatingSerializer.a_menu_item a' <> RatingSerializer.a_menu_item a ->
  RatingSerializer.ratings_of (RatingSerializer.a_user a')
    (RatingSerializer.a_menu_item a') objects1
  = RatingSerializer.ratings_of (RatingSerializer.a_user a')
      (RatingSerializer.a_menu_item a') objects /\
  RatingSerializer.run_validation model_kwargs objects1 a'
  = RatingSerializer.run_validation model_kwargs objects a'.
Proof.
  intros Hsub Hother.
  apply submit_ok in Hsub. destruct Hsub as (_ & Hobj & Hrows).
  destruct objects1 as [rows1 next1]. cbn [rows] in Hrows. subst rows1.
  assert (Hof : RatingSerializer.ratings_of (RatingSerializer.a_user a')
                  (RatingSerializer.a_menu_item a')
                  (mkTable (rows objects ++ [obj]) next1)
                = RatingSerializer.ratings_of (RatingSerializer.a_user a')
                    (RatingSerializer.a_menu_item a') objects).
  { rewrite ratings_of_app, Hobj. cbn [r_user r_menu_item].
    destruct (Z.eqb_spec (RatingSerializer.a_user a) (RatingSerializer.a_user a'));
      destruct (Z.eqb_spec (RatingSerializer.a_menu_item a)
                           (RatingSerializer.a_menu_item a'));
      cbn [andb]; try apply app_nil_r.
    exfalso. destruct Hother as [H|H]; apply H; congruence. }
  split; [exact Hof|].
  unfold RatingSerializer.run_validation, RatingSerializer.unique_together.
  unfold RatingSerializer.ratings_of in Hof. rewrite Hof. reflexivity.
Qed.

Lemma rating_leaves_other_pairs_witness :
  RatingSerializer.ratings_of 9 3 (mkTable [mkRating 1 8 3 4 None] 2)
  = RatingSerializer.ratings_of 9 3 (mkTable [] 1) /\
  RatingSerializer.run_validation (fun _ => ∅) (mkTable [mkRating 1 8 3 4 None] 2)
    (RatingSerializer.mkAttrs 9 3 5 None)
  = RatingSerializer.run_validation (fun _ => ∅) (mkTable [] 1)
      (RatingSerializer.mkAttrs 9 3 5 None).
Proof.
  apply (rating_leaves_other_pairs (fun _ => ∅) (mkTable [] 1)
           (mkTable [mkRating 1 8 3 4 None] 2)
           (RatingSerializer.mkAttrs 8 3 4 None) (RatingSerializer.mkAttrs 9 3 5 None)
           (mkRating 1 8 3 4 None)).
  - reflexivity.
  - left. cbn. lia.
Defined.

(** ** Order updates: assigning a crew, errors, and what a request can change *)

Lemma manager_validated (status : model_field) (users : list User) (partial : bool)
    (data : gmap string value) (vd : order_update) :
  ManagerOrderUpdateSerializer.to_internal_value status users partial data = Ok vd ->
  (data !! "delivery_crew" = None -> vd_delivery_crew vd = None) /\
  (data !! "status" = None -> vd_status vd = None).
Proof.
  unfold ManagerOrderUpdateSerializer.to_internal_value.
  destruct (field_error _ _ ++ field_error _ _); [|discriminate].
  intros [= <-]. cbn [vd_delivery_crew vd_status]. split; intros ->; cbn.
  - destruct partial; reflexivity.
  - unfold run_field. destruct partial; [reflexivity|].
    destruct (mf_required status); reflexivity.
Qed.

Lemma update_idempotent (o : Order) (vd : order_update) :
  update (update o vd) vd = update o vd.
Proof. destruct vd as [[u|] [s|]]; destruct o; reflexivity. Qed.

Lemma status_absent_skipped (status : model_field) (partial : bool) :
  partial = true \/ mf_required status = false ->
  run_field partial (mf_required status) (mf_allow_null status) VNull
    (mf_to_internal_value status) None = Skip.
Proof.
  intros [-> | Hreq]; [reflexivity|].
  unfold run_field. rewrite Hreq. destruct partial; reflexivity.
Qed.

(** A manager request that names an existing user as [delivery_crew] (and
    holds no status) assigns that user, and the order view then shows the
    same username under [delivery_crew]. *)
Theorem manager_assign_shows_in_view (status : model_field) (users : list User)
    (partial : bool) (instance : Order) (data : gmap string value) (name : string) :
  data !! "delivery_crew" = Some (VStr name) ->
  data !! "status" = None ->
  name <> "" ->
  (exists u, In u users /\ username u = name) ->
  partial = true \/ mf_required status = false ->
  exists u r,
    In u users /\ username u = name /\
    ManagerOrderUpdateSerializer.save status users partial instance data
      = Ok (set_delivery_crew instance (Some u)) /\
    to_representation OrderReadSerializer.fields (set_delivery_crew instance (Some u))
      = Ok r /\
    assoc "delivery_crew" r = Some (VStr name).
Proof.
  intros Hdc Hst Hname [u0 [Hin0 Hu0]] Hopt.
  destruct (List.find (fun u => String.eqb (username u) name) users) as [u|] eqn:Hfind.
  2: { pose proof (find_none _ _ Hfind u0 Hin0) as Hno. cbn in Hno.
       rewrite Hu0, String.eqb_refl in Hno. discriminate. }
  destruct (find_some _ _ Hfind) as [Hin Hu]. apply String.eqb_eq in Hu.
  exists u. eexists. split; [exact Hin|]. split; [exact Hu|].
  split; [|split; [apply order_view|]].
  - unfold ManagerOrderUpdateSerializer.save,
      ManagerOrderUpdateSerializer.to_internal_value.
    rewrite Hdc, Hst, (status_absent_skipped status partial Hopt).
    assert (Hrel : related_data (Some (VStr name)) = Some (VStr name)).
    { destruct name; [contradiction|reflexivity]. }
    rewrite Hrel. cbn [run_field]. unfold slug_to_internal_value. cbn [python_str]. rewrite Hfind.
    reflexivity.
  - cbn. unfold OrderReadSerializer.get_delivery_crew. cbn. rewrite Hu. reflexivity.
Qed.

Lemma manager_assign_shows_in_view_witness :
  exists u r,
    In u [mkUser 2 "bob"; mkUser 5 "eve"] /\ username u = "eve" /\
    ManagerOrderUpdateSerializer.save boolean_status [mkUser 2 "bob"; mkUser 5 "eve"]
      true ex_order {[ "delivery_crew" := VStr "eve" ]}
      = Ok (set_delivery_crew ex_order (Some u)) /\
    to_representation OrderReadSerializer.fields (set_delivery_crew ex_order (Some u))
      = Ok r /\
    assoc "delivery_crew" r = Some (VStr "eve").
Proof.
  apply (manager_assign_shows_in_view boolean_status [mkUser 2 "bob"; mkUser 5 "eve"]
           true ex_order {[ "delivery_crew" := VStr "eve" ]} "eve").
  - reflexivity.
  - reflexivity.
  - discriminate.
  - exists (mkUser 5 "eve"). split; [right; left; reflexivity|reflexivity].
  - left. reflexivity.
Defined.

(** A null [delivery_crew], and an empty string alike, unassigns the crew;
    the order view then shows [delivery_crew] as null. *)
Theorem manager_unassign_shows_null (status : model_field) (users : list User)
    (partial : bool) (instance : Order) (data : gmap string value) (v : value) :
  data !! "delivery_crew" = Some v ->
  v = VNull \/ v = VStr "" ->
  data !! "status" = None ->
  partial = true \/ mf_required status = false ->
  ManagerOrderUpdateSerializer.save status users partial instance data
    = Ok (set_delivery_crew instance None) /\
  exists r,
    to_representation OrderReadSerializer.fields (set_delivery_crew instance None) = Ok r /\
    assoc "delivery_crew" r = Some VNull.
Proof.
  intros Hdc Hv Hst Hopt. split.
  - unfold ManagerOrderUpdateSerializer.save,
      ManagerOrderUpdateSerializer.to_internal_value.
    rewrite Hdc, Hst, (status_absent_skipped status partial Hopt).
    destruct Hv as [-> | ->]; reflexivity.
  - eexists. split; [apply order_view|]. reflexivity.
Qed.

Lemma manager_unassign_shows_null_witness :
  ManagerOrderUpdateSerializer.save boolean_status [mkUser 2 "bob"] true
    (set_delivery_crew ex_order (Some (mkUser 2 "bob"))) {[ "delivery_crew" := VStr "" ]}
    = Ok (set_delivery_crew (set_delivery_crew ex_order (Some (mkUser 2 "bob"))) None) /\
  exists r,
    to_representation OrderReadSerializer.fields
      (set_delivery_crew (set_delivery_crew ex_order (Some (mkUser 2 "bob"))) None) = Ok r /\
    assoc "delivery_crew" r = Some VNull.
Proof.
  apply (manager_unassign_shows_null boolean_status [mkUser 2 "bob"] true
           (set_delivery_crew ex_order (Some (mkUser 2 "bob")))
           {[ "delivery_crew" := VStr "" ]} (VStr "")).
  - reflexivity.
  - right. reflexivity.
  - reflexivity.
  - left. reflexivity.
Defined.

(** A [delivery_crew] that is the username of no user is rejected, with
    the error of that field among the errors of the request; nothing is
    applied to the order. *)
Theorem manager_unknown_crew_rejected (status : model_field) (users : list User)
    (partial : bool) (instance : Order) (data : gmap string value) (name : string) :
  data !! "delivery_crew" = Some (VStr name) ->
  name <> "" ->
  (forall u, In u users -> username u <> name) ->
  exists errors,
    ManagerOrderUpdateSerializer.save status users partial instance data
      = Raise (FieldErrors errors) /\
    In ("delivery_crew", "Object with username=" +:+ name +:+ " does not exist.") errors.
Proof.
  intros Hdc Hname Hnone.
  assert (Hfind : List.find (fun u => String.eqb (username u) name) users = None).
  { destruct (List.find _ users) as [u|] eqn:E; [|reflexivity].
    apply find_some in E. destruct E as [Hin Hu]. apply String.eqb_eq in Hu.
    exfalso. exact (Hnone u Hin Hu). }
  assert (Hrel : related_data (Some (VStr name)) = Some (VStr name)).
  { destruct name; [contradiction|reflexivity]. }
  unfold ManagerOrderUpdateSerializer.save,
    ManagerOrderUpdateSerializer.to_internal_value.
  rewrite Hdc, Hrel. cbn [run_field]. unfold slug_to_internal_value. cbn [python_str]. rewrite Hfind.
  cbn [error_message field_error app].
  eexists. split; [reflexivity|]. left. reflexivity.
Qed.

Lemma manager_unknown_crew_rejected_witness :
  exists errors,
    ManagerOrderUpdateSerializer.save boolean_status [mkUser 2 "bob"] true ex_order
      {[ "delivery_crew" := VStr "bo"; "status" := VBool true ]}
      = Raise (FieldErrors errors) /\
    In ("delivery_crew", "Object with username=bo does not exist.") errors.
Proof.
  apply (manager_unknown_crew_rejected boolean_status [mkUser 2 "bob"] true ex_order
           {[ "delivery_crew" := VStr "bo"; "status" := VBool true ]} "bo").
  - reflexivity.
  - discriminate.
  - intros u [<-|[]]. discriminate.
Defined.

(** The handler serializer is the manager serializer on the request
    without its [delivery_crew]: same acceptance, same errors, same order. *)
Theorem handler_is_manager_without_crew (status : model_field) (users : list User)
    (partial : bool) (instance : Order) (data : gmap string value) :
  DeliveryCrewOrderUpdateSerializer.save status partial instance data
  = ManagerOrderUpdateSerializer.save status users partial instance
      (delete "delivery_crew" data).
Proof.
  unfold DeliveryCrewOrderUpdateSerializer.save, ManagerOrderUpdateSerializer.save,
    DeliveryCrewOrderUpdateSerializer.to_internal_value,
    ManagerOrderUpdateSerializer.to_internal_value.
  rewrite lookup_delete_eq, lookup_delete_ne by discriminate.
  cbn [related_data].
  assert (Hskip : forall f : value -> result (option User),
            run_field partial false true None f None = Skip)
    by (intros f; destruct partial; reflexivity).
  rewrite Hskip. reflexivity.
Qed.

(** An accepted manager request changes no attribute of the order but the
    delivery crew and the status, and of these only the ones the request
    names; applying the same request again changes nothing more. *)
Theorem manager_update_changes_named_fields_only (status : model_field)
    (users : list User) (partial : bool) (instance o' : Order)
    (data : gmap string value) :
  ManagerOrderUpdateSerializer.save status users partial instance data = Ok o' ->
  o_pk o' = o_pk instance /\
  o_user o' = o_user instance /\
  o_total o' = o_total instance /\
  o_date o' = o_date instance /\
  o_items o' = o_items instance /\
  (data !! "delivery_crew" = None -> o_delivery_crew o' = o_delivery_crew instance) /\
  (data !! "status" = None -> o_status o' = o_status instance) /\
  ManagerOrderUpdateSerializer.save status users partial o' data = Ok o'.
Proof.
  unfold ManagerOrderUpdateSerializer.save.
  destruct (ManagerOrderUpdateSerializer.to_internal_value status users partial data)
    as [vd|e] eqn:E; [|discriminate].
  intros [= <-].
  destruct (manager_validated status users partial data vd E) as [Hdc Hst].
  destruct (update_frame instance vd) as (H1 & H2 & H3 & H4 & H5 & H6 & H7).
  repeat split; try assumption.
  - intros Habs. rewrite H6, (Hdc Habs). reflexivity.
  - intros Habs. rewrite H7, (Hst Habs). reflexivity.
  - rewrite update_idempotent. reflexivity.
Qed.

Lemma manager_update_changes_named_fields_only_witness :
  o_pk (set_status ex_order (VBool true)) = o_pk ex_order /\
  o_user (set_status ex_order (VBool true)) = o_user ex_order /\
  o_total (set_status ex_order (VBool true)) = o_total ex_order /\
  o_date (set_status ex_order (VBool true)) = o_date ex_order /\
  o_items (set_status ex_order (VBool true)) = o_items ex_order /\
  (({[ "status" := VBool true ]} : gmap string value) !! "delivery_crew" = None ->
   o_delivery_crew (set_status ex_order (VBool true)) = o_delivery_crew ex_order) /\
  (({[ "status" := VBool true ]} : gmap string value) !! "status" = None ->
   o_status (set_status ex_order (VBool true)) = o_status ex_order) /\
  ManagerOrderUpdateSerializer.save boolean_status [mkUser 2 "bob"] false
    (set_status ex_order (VBool true)) {[ "status" := VBool true ]}
  = Ok (set_status ex_order (VBool true)).
Proof.
  apply (manager_update_changes_named_fields_only boolean_status [mkUser 2 "bob"] false
           ex_order (set_status ex_order (VBool true)) {[ "status" := VBool true ]}).
  reflexivity.
Defined.

(** ** Views of orders and of single menu items *)

(** The view of an order is built for every order: it holds the seven
    entries of [Meta.fields] in order, the owner's username, a null
    [delivery_crew] exactly when no crew is assigned, and one item view per
    item of the order. *)
Theorem order_view_shape (o : Order) :
  exists r views,
    to_representation OrderReadSerializer.fields o = Ok r /\
    keys r = ["id"; "user"; "delivery_crew"; "status"; "total"; "date"; "items"] /\
    assoc "user" r = Some (VStr (username (o_user o))) /\
    (assoc "delivery_crew" r = Some VNull <-> o_delivery_crew o = None) /\
    assoc "items" r = Some (VList views) /\
    length views = length (o_items o).
Proof.
  eexists. eexists. split; [apply order_view|].
  split; [reflexivity|]. split; [reflexivity|]. split; [|split].
  - cbn. unfold OrderReadSerializer.get_delivery_crew.
    destruct (o_delivery_crew o) as [u|]; split; intros H;
      try reflexivity; inversion H.
  - reflexivity.
  - apply length_map.
Qed.

(** The view of a single menu item with a stored price: six entries, no
    [category_id] and no [price_after_tax]; every entry equals the entry of
    the same name in the menu item view of [MenuItemSerializer]. *)
Theorem single_item_view_fields (obj : MenuItem) (c : Z) :
  mi_price obj = Decimal.cents c ->
  200 <= c <= 999999 ->
  exists r,
    to_representation SingleItemSerializer_fields obj = Ok r /\
    keys r = ["id"; "dish"; "price"; "category"; "stock"; "is_item_of_the_day"] /\
    (forall r' k,
       to_representation MenuItemSerializer_fields obj = Ok r' ->
       k <> "price_after_tax" ->
       assoc k r' = assoc k r).
Proof.
  intros Hp Hc.
  eexists. split; [|split].
  - unfold to_representation, SingleItemSerializer_fields.
    cbn [readable_fields List.filter write_only negb represent to_repr field_name].
    rewrite Hp, (price_field_renders_cents c Hc).
    unfold to_representation, CategoryMiniSerializer_fields.
    cbn [decimal_value nested readable_fields List.filter write_only negb
         represent to_repr field_name].
    reflexivity.
  - reflexivity.
  - intros r' k.
    unfold to_representation at 1. unfold MenuItemSerializer_fields.
    cbn [readable_fields List.filter write_only negb represent to_repr field_name].
    rewrite Hp, (price_field_renders_cents c Hc).
    unfold to_representation, CategoryMiniSerializer_fields.
    destruct (get_price_after_tax obj) as [d|e];
      cbn [decimal_value nested readable_fields List.filter write_only negb
           represent to_repr field_name];
      [|discriminate].
    intros [= <-] Hk. cbn [assoc].
    repeat match goal with
           | |- context [String.eqb ?s k] =>
               let E := fresh "E" in
               destruct (String.eqb s k) eqn:E;
               [apply String.eqb_eq in E; subst k;
                first [reflexivity | congruence]|]
           end.
    reflexivity.
Qed.

Lemma single_item_view_fields_witness :
  exists r,
    to_representation SingleItemSerializer_fields (menu_item_priced 3 "Pasta" 1250) = Ok r /\
    keys r = ["id"; "dish"; "price"; "category"; "stock"; "is_item_of_the_day"] /\
    (forall r' k,
       to_representation MenuItemSerializer_fields (menu_item_priced 3 "Pasta" 1250) = Ok r' ->
       k <> "price_after_tax" ->
       assoc k r' = assoc k r).
Proof.
  apply (single_item_view_fields (menu_item_priced 3 "Pasta" 1250) 1250).
  - reflexivity.
  - lia.
Defined.

(** ** The cart: any number of adds *)

Section CartRuns.

Import CartItemSerializer.

Lemma create_all_on_existing_row (user menu_item : Z)
    (requests : list validated_data) :
  Forall (fun d => mi_pk (vd_menu_item d) = menu_item) requests ->
  forall (objects : table CartItem) (obj : CartItem),
    NoDup (map ci_pk (rows objects)) ->
    List.filter (same_pair user menu_item) (rows objects) = [obj] ->
    exists obj' objects',
      create_all objects user requests = Ok objects' /\
      List.filter (same_pair user menu_item) (rows objects') = [obj'] /\
      ci_quantity obj' = ci_quantity obj + requested_quantity requests /\
      ci_unit_price obj' = ci_unit_price obj /\
      length (rows objects') = length (rows objects).
Proof.
  induction 1 as [|data rest Hdata _ IH]; intros objects obj Hnd Hone.
  - exists obj, objects. cbn. repeat split; try assumption. lia.
  - destruct (filter_singleton_in _ _ _ Hone) as [Hin _].
    set (obj1 := set_quantity obj (ci_quantity obj + default 1 (vd_quantity data))).
    assert (Hcreate : create objects user data = Ok (obj1, save objects obj1)).
    { apply create_again. rewrite Hdata. exact Hone. }
    assert (Hsave : save objects obj1
                    = mkTable (map (overwrite obj1) (rows objects)) (next_pk objects))
      by (apply (save_existing objects obj obj1 Hin eq_refl)).
    destruct (IH (save objects obj1) obj1) as (obj' & objects' & Hrun & Hf & Hq & Hp & Hlen).
    + rewrite Hsave. cbn [rows]. rewrite map_map.
      rewrite (map_ext (fun r => ci_pk (overwrite obj1 r)) ci_pk)
        by (intros; apply overwrite_pk).
      exact Hnd.
    + rewrite Hsave. cbn [rows].
      rewrite (filter_overwrite (same_pair user menu_item) _ obj obj1
                 Hnd Hin eq_refl eq_refl), Hone.
      cbn [map]. rewrite overwrite_self by reflexivity. reflexivity.
    + exists obj', objects'. cbn [create_all]. rewrite Hcreate.
      split; [exact Hrun|]. split; [exact Hf|].
      split; [|split].
      * rewrite Hq. unfold requested_quantity. cbn. lia.
      * rewrite Hp. reflexivity.
      * rewrite Hlen, Hsave. cbn [rows]. apply length_map.
Qed.

(** Any run of adds by one user for one menu item, on a cart that has no
    row for the pair, ends with exactly one row for it: its quantity is the
    sum of the requested quantities, its unit price the price of the menu
    item at the first add, and the table has grown by that one row. *)
Theorem cart_adds_merge_into_one_row (objects : table CartItem) (user : Z)
    (first : validated_data) (rest : list validated_data) :
  keys_fresh objects ->
  List.filter (same_pair user (mi_pk (vd_menu_item first))) (rows objects) = [] ->
  Forall (fun d => mi_pk (vd_menu_item d) = mi_pk (vd_menu_item first)) rest ->
  exists obj objects',
    create_all objects user (first :: rest) = Ok objects' /\
    List.filter (same_pair user (mi_pk (vd_menu_item first))) (rows objects') = [obj] /\
    ci_quantity obj = requested_quantity (first :: rest) /\
    ci_unit_price obj = mi_price (vd_menu_item first) /\
    length (rows objects') = S (length (rows objects)).
Proof.
  intros [Hnd Hlt] Hnone Hrest.
  set (obj1 := mkCartItem (next_pk objects) user (mi_pk (vd_menu_item first))
                 (default 1 (vd_quantity first)) (mi_price (vd_menu_item first))).
  set (objects1 := mkTable (rows objects ++ [obj1]) (next_pk objects + 1)).
  assert (Hcreate : create objects user first = Ok (obj1, objects1))
    by (apply create_first; exact Hnone).
  destruct (create_all_on_existing_row user (mi_pk (vd_menu_item first)) rest Hrest
              objects1 obj1) as (obj & objects' & Hrun & Hf & Hq & Hp & Hlen).
  - unfold objects1. cbn [rows]. rewrite map_app. apply NoDup_app.
    split; [exact Hnd|]. split.
    + intros x Hx Hx'. cbn in Hx'. apply list_elem_of_In in Hx, Hx'.
      destruct Hx' as [<-|[]].
      apply in_map_iff in Hx. destruct Hx as (r & Hr & Hin).
      rewrite Forall_forall in Hlt. apply list_elem_of_In in Hin.
      specialize (Hlt r Hin). cbn in Hr. lia.
    + cbn. apply NoDup_cons. split; [set_solver|apply NoDup_nil; exact I].
  - unfold objects1. cbn [rows]. rewrite List.filter_app, Hnone.
    cbn [List.filter app]. unfold obj1. rewrite same_pair_new. reflexivity.
  - exists obj, objects'. cbn [create_all]. rewrite Hcreate.
    split; [exact Hrun|]. split; [exact Hf|]. split; [|split].
    + rewrite Hq. unfold requested_quantity. cbn. lia.
    + rewrite Hp. reflexivity.
    + rewrite Hlen. unfold objects1. cbn [rows]. rewrite length_app. cbn. lia.
Qed.

Lemma cart_adds_merge_into_one_row_witness :
  exists obj objects',
    create_all (mkTable [mkCartItem 1 8 4 1 (Decimal.cents 600)] 2) 8
      [mkValidated (menu_item_priced 3 "Pasta" 1250) (Some 2);
       mkValidated (menu_item_priced 3 "Pasta" 1400) None;
       mkValidated (menu_item_priced 3 "Pasta" 1300) (Some 4)]
      = Ok objects' /\
    List.filter (same_pair 8 3) (rows objects') = [obj] /\
    ci_quantity obj = 2 + (1 + (4 + 0)) /\
    ci_unit_price obj = Decimal.cents 1250 /\
    length (rows objects') = 2%nat.
Proof.
  apply (cart_adds_merge_into_one_row
           (mkTable [mkCartItem 1 8 4 1 (Decimal.cents 600)] 2) 8
           (mkValidated (menu_item_priced 3 "Pasta" 1250) (Some 2))
           [mkValidated (menu_item_priced 3 "Pasta" 1400) None;
            mkValidated (menu_item_priced 3 "Pasta" 1300) (Some 4)]).
  - split; [compute_done|repeat constructor].
  - reflexivity.
  - repeat constructor.
Defined.

End CartRuns.
